(** * CogniSynapseRank: the browser client [static/script.js]

    The script has two parts: the submit listener of the form
    [analysisForm], which builds a task-creation request from two form
    fields, and [pollStatus], which registers an interval timer whose
    callback queries the task status until the server reports
    ['Analysis Completed'].

    JavaScript strings are sequences of UTF-16 code units; they are
    modelled as lists of [N].  Asynchronous code is modelled by a state
    and the events the browser can deliver to it (a period of the timer
    elapsing, the outcome of a request); every effect of the script is
    appended to a trace.  A page follows one submission of the form; the
    two awaits of a request ([fetch], then [response.json()]) are one
    event with three outcomes, nothing observable happening between
    them.  The callbacks of the timer are instances of one closure, so
    the callbacks suspended at an await are counted, not named. *)

From Stdlib Require Import List NArith Bool Arith Lia String Ascii.
Import ListNotations.

Open Scope N_scope.
Set Warnings "-register-all".

(** ** Strings *)

Module JsString.

Definition code_unit := N.
Definition jsstring := list code_unit.

(** A string literal of the source; all of them are ASCII. *)
Definition lit (s : string) : jsstring :=
  map N_of_ascii (list_ascii_of_string s).

(** WhiteSpace and LineTerminator of ECMAScript, the code points that
    [String.prototype.trim] strips. *)
Definition is_white_space (c : code_unit) : bool :=
  (c =? 0x09) || (c =? 0x0A) || (c =? 0x0B) || (c =? 0x0C) || (c =? 0x0D)
  || (c =? 0x20) || (c =? 0xA0) || (c =? 0x1680)
  || ((0x2000 <=? c) && (c <=? 0x200A))
  || (c =? 0x2028) || (c =? 0x2029) || (c =? 0x202F) || (c =? 0x205F)
  || (c =? 0x3000) || (c =? 0xFEFF).

Definition comma : code_unit := 0x2C.

(** [s.split(sep)] for a separator of one code unit: the pieces between
    the occurrences of [sep]; the empty string gives one empty piece. *)
Fixpoint split (sep : code_unit) (s : jsstring) : list jsstring :=
  match s with
  | [] => [[]]
  | c :: r =>
      if c =? sep then [] :: split sep r
      else match split sep r with
           | p :: ps => (c :: p) :: ps
           | [] => [[c]]
           end
  end.

Fixpoint trim_start (s : jsstring) : jsstring :=
  match s with
  | [] => []
  | c :: r => if is_white_space c then trim_start r else s
  end.

Definition trim_end (s : jsstring) : jsstring := rev (trim_start (rev s)).

(** [s.trim()] *)
Definition trim (s : jsstring) : jsstring := trim_end (trim_start s).

(** ToBoolean on a string: only the empty string is falsy. *)
Definition to_boolean (s : jsstring) : bool :=
  match s with [] => false | _ :: _ => true end.

(** [Array.prototype.join] on strings. *)
Fixpoint join (sep : code_unit) (ps : list jsstring) : jsstring :=
  match ps with
  | [] => []
  | [p] => p
  | p :: ps' => p ++ sep :: join sep ps'
  end.

End JsString.
Import JsString.

(** ** The submit listener: derived fields *)

(** Line 5:
    [formData.get('comparison_urls').split(',').map(url => url.trim()).filter(url => url)],
    applied to the string the field holds. *)
Definition comparison_urls_of (field : jsstring) : list jsstring :=
  filter to_boolean (map trim (split comma field)).

(** *** The specification's wording of the derivation

    "split on [,], each piece trimmed of surrounding whitespace, empty
    pieces discarded, order preserved", stated without reference to the
    functions above. *)

Module Spec.

(** [ps] are the pieces of [s] between its commas. *)
Definition is_split (s : jsstring) (ps : list jsstring) : Prop :=
  ps <> [] /\ join comma ps = s /\ Forall (fun p => ~ In comma p) ps.

Definition all_white (l : jsstring) : Prop :=
  Forall (fun c => is_white_space c = true) l.

(** [t] is [p] without its surrounding whitespace. *)
Definition is_trimmed (p t : jsstring) : Prop :=
  exists l r,
    p = l ++ t ++ r /\ all_white l /\ all_white r
    /\ (forall c t', t = c :: t' -> is_white_space c = false)
    /\ (forall c t', t = t' ++ [c] -> is_white_space c = false).

Definition comparison_urls (s : jsstring) (out : list jsstring) : Prop :=
  exists ps ts,
    is_split s ps /\ Forall2 is_trimmed ps ts
    /\ out = filter (fun t => negb (List.length t =? 0)%nat) ts.

End Spec.

(** ** Values

    What [response.json()] can give, and the three operations the script
    applies to such values: reading a property, [===] against a string
    literal, and the ToString of a template literal. *)

Module Js.

Fixpoint eqb (a b : jsstring) : bool :=
  match a, b with
  | [], [] => true
  | x :: a', y :: b' => (x =? y) && eqb a' b'
  | _, _ => false
  end.

(** A parsed JSON text.  A Number is held as the text ToString gives for
    it, the only thing the script can observe of it; the members of an
    object are its own properties, looked up by the first match. *)
Inductive json :=
| JNull
| JBool (b : bool)
| JNum (repr : jsstring)
| JStr (s : jsstring)
| JArr (items : list json)
| JObj (members : list (jsstring * json)).

(** A value read from a parsed body: a property that is absent reads as
    [undefined]. *)
Inductive value :=
| Undefined
| Json (j : json).

Fixpoint own_property (name : jsstring) (ms : list (jsstring * json))
  : option json :=
  match ms with
  | [] => None
  | (k, v) :: r => if eqb name k then Some v else own_property name r
  end.

(** [v.name] for a name that no prototype defines ([status], [task_id]).
    [None] is the TypeError of reading a property of [null] or
    [undefined]; on a primitive or an array the property is absent. *)
Definition get (name : jsstring) (v : value) : option value :=
  match v with
  | Undefined => None
  | Json JNull => None
  | Json (JObj ms) =>
      Some (match own_property name ms with
            | Some j => Json j
            | None => Undefined
            end)
  | Json _ => Some Undefined
  end.

(** [v === 'literal'] *)
Definition strict_eq_string (v : value) (literal : jsstring) : bool :=
  match v with
  | Json (JStr s) => eqb s literal
  | _ => false
  end.

(** ToString of a parsed value.  An array is joined with [","], [null]
    elements giving the empty string.  An object goes through
    OrdinaryToPrimitive: without an own [toString] member it is
    ["[object Object]"]; an own [toString] member is never callable, and
    [valueOf] then gives the object back, so the conversion throws
    ([None]). *)
Fixpoint json_to_string (j : json) : option jsstring :=
  match j with
  | JNull => Some (lit "null")
  | JBool true => Some (lit "true")
  | JBool false => Some (lit "false")
  | JNum repr => Some repr
  | JStr s => Some s
  | JArr items =>
      let fix joined (l : list json) : option jsstring :=
        match l with
        | [] => Some []
        | x :: r =>
            match (match x with JNull => Some [] | _ => json_to_string x end), r with
            | None, _ => None
            | Some sx, [] => Some sx
            | Some sx, _ :: _ =>
                match joined r with
                | Some sr => Some (sx ++ comma :: sr)
                | None => None
                end
            end
        end
      in joined items
  | JObj ms =>
      match own_property (lit "toString") ms with
      | Some _ => None
      | None => Some (lit "[object Object]")
      end
  end.

Definition to_string (v : value) : option jsstring :=
  match v with
  | Undefined => Some (lit "undefined")
  | Json j => json_to_string j
  end.

End Js.
Import Js.

(** ** The page *)

(** The argument of [JSON.stringify] stands for the text it produces. *)
Inductive body_init :=
| JSON_stringify (v : json).

(** What [fetch] is called with; a call without options is a GET without
    headers or body. *)
Record request := {
  url : jsstring;
  method : jsstring;
  headers : list (jsstring * jsstring);
  body : option body_init
}.

(** Line 7 to 11. *)
Definition analyze_request (main_url comparison_urls : json) : request :=
  {| url := lit "/analyze";
     method := lit "POST";
     headers := [(lit "Content-Type", lit "application/json")];
     body := Some (JSON_stringify
                     (JObj [(lit "main_url", main_url);
                            (lit "comparison_urls", comparison_urls)])) |}.

(** Line 25: [fetch(`/results/${taskId}`)]. *)
Definition status_request (id : jsstring) : request :=
  {| url := lit "/results/" ++ id;
     method := lit "GET";
     headers := [];
     body := None |}.

(** The [textContent] of the elements [statusText] and [results]. *)
Record dom := {
  statusText : jsstring;
  resultsDiv : jsstring
}.

(** How an awaited request ends: [fetch] rejects, [response.json()]
    rejects, or the body parses. *)
Inductive outcome :=
| NetworkError
| NotJson
| Body (data : json).

Inductive effect :=
| PreventDefault
| Fetch (r : request)
| SetStatus (text : jsstring)
| SetResults (text : jsstring)
| SetInterval (delay : N)
| ClearInterval
| Uncaught.

(** The closure of [pollStatus]: the task, the timer ([Some delay] while
    it is registered) and the number of callbacks suspended at an
    [await]. *)
Record poll := {
  taskId : value;
  interval : option N;
  inflight : nat
}.

Inductive phase :=
| Submitting
| Polling (p : poll)
| Aborted.

Record page := {
  doc : dom;
  stage : phase;
  trace : list effect
}.

Definition completed_text : jsstring := lit "Analysis Completed!".
Definition results_notice : jsstring :=
  lit "Check your analysis results in server logs or API response.".
Definition sentinel : jsstring := lit "Analysis Completed".

(** An exception leaves an async function: its promise rejects, nobody
    handles it. *)
Definition throw (ph : phase) (pg : page) : page :=
  {| doc := doc pg; stage := ph; trace := trace pg ++ [Uncaught] |}.

(** Lines 20 to 24 and 35: [pollStatus] registers the timer and returns. *)
Definition pollStatus (id : value) (pg : page) : page :=
  {| doc := doc pg;
     stage := Polling {| taskId := id; interval := Some 2000; inflight := 0 |};
     trace := trace pg ++ [SetInterval 2000] |}.

(** [FormData]: the entries of the form, [get] gives the first value of a
    name, [None] for [null]. *)
Definition form_data := list (jsstring * jsstring).

Fixpoint form_get (name : jsstring) (fd : form_data) : option jsstring :=
  match fd with
  | [] => None
  | (k, v) :: r => if eqb name k then Some v else form_get name r
  end.

(** Lines 1 to 11: the listener up to its first [await]. *)
Definition on_submit (formData : form_data) (d : dom) : page :=
  let main_url :=
    match form_get (lit "main_url") formData with
    | Some v => JStr v
    | None => JNull
    end in
  match form_get (lit "comparison_urls") formData with
  | None =>
      {| doc := d; stage := Aborted; trace := [PreventDefault; Uncaught] |}
  | Some field =>
      let comparison_urls := JArr (map JStr (comparison_urls_of field)) in
      {| doc := d;
         stage := Submitting;
         trace := [PreventDefault;
                   Fetch (analyze_request main_url comparison_urls)] |}
  end.

(** Line 16: the status display announces the task. *)
Definition task_started (pg : page) : page :=
  {| doc := {| statusText := lit "Task started...";
               resultsDiv := resultsDiv (doc pg) |};
     stage := stage pg;
     trace := trace pg ++ [SetStatus (lit "Task started...")] |}.

(** Lines 13 to 17: the listener after the response. *)
Definition on_analyze_reply (o : outcome) (pg : page) : page :=
  match o with
  | NetworkError => throw Aborted pg
  | NotJson => throw Aborted pg
  | Body data =>
      match get (lit "task_id") (Json data) with
      | None => throw Aborted pg
      | Some id => pollStatus id (task_started pg)
      end
  end.

(** Line 25: the timer's callback up to its first [await]. *)
Definition interval_callback (p : poll) (pg : page) : page :=
  match to_string (taskId p) with
  | None => throw (Polling p) pg
  | Some id =>
      {| doc := doc pg;
         stage := Polling {| taskId := taskId p;
                             interval := interval p;
                             inflight := S (inflight p) |};
         trace := trace pg ++ [Fetch (status_request id)] |}
  end.

(** Lines 26 to 34: the callback after the response; [p] is the closure
    once this callback is no longer counted in flight. *)
Definition on_status_reply (o : outcome) (p : poll) (pg : page) : page :=
  match o with
  | NetworkError => throw (Polling p) pg
  | NotJson => throw (Polling p) pg
  | Body data =>
      match get (lit "status") (Json data) with
      | None => throw (Polling p) pg
      | Some status =>
          if strict_eq_string status sentinel then
            {| doc := {| statusText := completed_text;
                         resultsDiv := results_notice |};
               stage := Polling {| taskId := taskId p;
                                   interval := None;
                                   inflight := inflight p |};
               trace := trace pg ++ [ClearInterval;
                                     SetStatus completed_text;
                                     SetResults results_notice] |}
          else
            match to_string status with
            | None => throw (Polling p) pg
            | Some s =>
                {| doc := {| statusText := lit "Current Task: " ++ s;
                             resultsDiv := resultsDiv (doc pg) |};
                   stage := Polling p;
                   trace := trace pg ++ [SetStatus (lit "Current Task: " ++ s)] |}
            end
      end
  end.

(** ** The event loop

    [Tick]: one period of the interval timer has elapsed; the callback
    runs if the timer is still registered.  [AnalyzeReply], [StatusReply]:
    an awaited request ends.  A reply nobody awaits cannot happen
    ([None]). *)
Inductive event :=
| Tick
| AnalyzeReply (o : outcome)
| StatusReply (o : outcome).

Definition step (e : event) (pg : page) : option page :=
  match e, stage pg with
  | Tick, Polling p =>
      match interval p with
      | Some _ => Some (interval_callback p pg)
      | None => Some pg
      end
  | Tick, _ => Some pg
  | AnalyzeReply o, Submitting => Some (on_analyze_reply o pg)
  | AnalyzeReply _, _ => None
  | StatusReply o, Polling p =>
      match inflight p with
      | S n =>
          Some (on_status_reply o
                  {| taskId := taskId p; interval := interval p; inflight := n |}
                  pg)
      | O => None
      end
  | StatusReply _, _ => None
  end.

Fixpoint run (es : list event) (pg : page) : option page :=
  match es with
  | [] => Some pg
  | e :: r =>
      match step e pg with
      | Some pg' => run r pg'
      | None => None
      end
  end.

(** ** Observations *)

Fixpoint fetches (tr : list effect) : list request :=
  match tr with
  | [] => []
  | Fetch r :: tr' => r :: fetches tr'
  | _ :: tr' => fetches tr'
  end.

Fixpoint status_writes (tr : list effect) : list jsstring :=
  match tr with
  | [] => []
  | SetStatus s :: tr' => s :: status_writes tr'
  | _ :: tr' => status_writes tr'
  end.

Fixpoint results_writes (tr : list effect) : list jsstring :=
  match tr with
  | [] => []
  | SetResults s :: tr' => s :: results_writes tr'
  | _ :: tr' => results_writes tr'
  end.

Fixpoint uncaught (tr : list effect) : nat :=
  match tr with
  | [] => O
  | Uncaught :: tr' => S (uncaught tr')
  | _ :: tr' => uncaught tr'
  end.

(** Does this reply carry the terminal status?  (Line 28.) *)
Definition terminal (o : outcome) : bool :=
  match o with
  | Body data =>
      match get (lit "status") (Json data) with
      | Some status => strict_eq_string status sentinel
      | None => false
      end
  | _ => false
  end.

Fixpoint status_replies (es : list event) : list outcome :=
  match es with
  | [] => []
  | StatusReply o :: r => o :: status_replies r
  | _ :: r => status_replies r
  end.

Fixpoint ticks (es : list event) : nat :=
  match es with
  | [] => O
  | Tick :: r => S (ticks r)
  | _ :: r => ticks r
  end.

(** The timer of a page: [None] when none is registered. *)
Definition timer (pg : page) : option N :=
  match stage pg with
  | Polling p => interval p
  | _ => None
  end.

Definition in_flight (pg : page) : nat :=
  match stage pg with
  | Polling p => inflight p
  | _ => O
  end.

(** What a status reply writes to the status display. *)
Definition status_write_of (o : outcome) : list jsstring :=
  match o with
  | Body data =>
      match get (lit "status") (Json data) with
      | Some status =>
          if strict_eq_string status sentinel then [completed_text]
          else match to_string status with
               | Some s => [lit "Current Task: " ++ s]
               | None => []
               end
      | None => []
      end
  | _ => []
  end.

Definition results_write_of (o : outcome) : list jsstring :=
  if terminal o then [results_notice] else [].

(** The query a tick issues, none when the timer is off or the task
    identifier does not convert to a string. *)
Definition query_of (p : poll) : list request :=
  match interval p, to_string (taskId p) with
  | Some _, Some id => [status_request id]
  | _, _ => []
  end.

(** The terminal replies a schedule delivers. *)
Definition terminal_replies (es : list event) : nat :=
  List.length (filter terminal (status_replies es)).

Definition jsstring_eq_dec : forall a b : jsstring, {a = b} + {a <> b} :=
  list_eq_dec N.eq_dec.

(** How often the completion text was written to the status display. *)
Definition completions (tr : list effect) : nat :=
  count_occ jsstring_eq_dec (status_writes tr) completed_text.

(** The ticks of a schedule that come before its first terminal reply:
    the periods during which the timer is still registered. *)
Fixpoint live_ticks (es : list event) : nat :=
  match es with
  | [] => O
  | Tick :: r => S (live_ticks r)
  | StatusReply o :: r => if terminal o then O else live_ticks r
  | AnalyzeReply _ :: r => live_ticks r
  end.

(** ** Sample inputs *)

Module Sample.

Definition blank : dom := {| statusText := []; resultsDiv := [] |}.

Definition form : form_data :=
  [(lit "main_url", lit "http://x"); (lit "comparison_urls", lit "a, b ,, c")].

(** The response [{"task_id": "t1"}]. *)
Definition task_created : json := JObj [(lit "task_id", JStr (lit "t1"))].

(** The response [{"status": s}]. *)
Definition status (s : string) : outcome :=
  Body (JObj [(lit "status", JStr (lit s))]).

(** The page once the form is submitted and the task announced. *)
Definition announced : page := task_started (on_submit form blank).

(** The page when [pollStatus("t1")] has returned. *)
Definition polling : page := pollStatus (Json (JStr (lit "t1"))) announced.

End Sample.

(** ** Lemmas on strings *)

Section StringLemmas.

Lemma split_not_nil sep s : split sep s <> [].
Proof.
  destruct s as [|c r]; simpl; [discriminate|].
  destruct (c =? sep); [discriminate|].
  destruct (split sep r); discriminate.
Qed.

Lemma join_cons sep p q qs :
  join sep (p :: q :: qs) = p ++ sep :: join sep (q :: qs).
Proof. reflexivity. Qed.

Lemma join_split sep s : join sep (split sep s) = s.
Proof.
  induction s as [|c r IH]; [reflexivity|].
  cbn [split]. pose proof (split_not_nil sep r) as Hnn.
  destruct (N.eqb_spec c sep) as [->|Hne];
    destruct (split sep r) as [|q qs]; try congruence.
  - rewrite join_cons, IH. reflexivity.
  - destruct qs as [|q' qs'].
    + cbn [join] in *. now rewrite IH.
    + rewrite join_cons in *. rewrite <- IH. reflexivity.
Qed.

Lemma split_sep_free sep s : Forall (fun p => ~ In sep p) (split sep s).
Proof.
  induction s as [|c r IH]; simpl.
  - constructor; [intros []|constructor].
  - destruct (N.eqb_spec c sep) as [->|Hne].
    + constructor; [intros []|exact IH].
    + destruct (split sep r) as [|q qs].
      * constructor; [|constructor]. intros [H|[]]. congruence.
      * inversion IH; subst. constructor; [|assumption].
        intros [H|H]; [congruence|contradiction].
Qed.

Lemma split_cons sep c r :
  split sep (c :: r) =
  if c =? sep then [] :: split sep r
  else match split sep r with
       | p :: ps => (c :: p) :: ps
       | [] => [[c]]
       end.
Proof. reflexivity. Qed.

Lemma split_sep_absent sep p : ~ In sep p -> split sep p = [p].
Proof.
  induction p as [|c p IH]; intros Hp; [reflexivity|].
  rewrite split_cons. destruct (N.eqb_spec c sep) as [->|Hne].
  - exfalso. apply Hp. now left.
  - rewrite IH; [reflexivity|]. intros H. apply Hp. now right.
Qed.

Lemma split_app_sep sep p rest :
  ~ In sep p -> split sep (p ++ sep :: rest) = p :: split sep rest.
Proof.
  induction p as [|c p IH]; intros Hp.
  - change ([] ++ sep :: rest) with (sep :: rest).
    rewrite split_cons, N.eqb_refl. reflexivity.
  - change ((c :: p) ++ sep :: rest) with (c :: (p ++ sep :: rest)).
    rewrite split_cons. destruct (N.eqb_spec c sep) as [->|Hne].
    + exfalso. apply Hp. now left.
    + rewrite IH; [reflexivity|]. intros H. apply Hp. now right.
Qed.

(** The pieces are determined by the string. *)
Lemma split_of_join sep ps :
  ps <> [] -> Forall (fun p => ~ In sep p) ps -> split sep (join sep ps) = ps.
Proof.
  induction ps as [|p qs IH]; [congruence|].
  intros _ Hfree. inversion Hfree as [|? ? Hp Hqs]; subst.
  destruct qs as [|q qs'].
  - now apply split_sep_absent.
  - rewrite join_cons, split_app_sep by assumption.
    f_equal. apply IH; [discriminate|assumption].
Qed.

Lemma trim_start_white l x :
  Spec.all_white l -> trim_start (l ++ x) = trim_start x.
Proof.
  induction 1 as [|c l Hc _ IH]; [reflexivity|].
  simpl. now rewrite Hc.
Qed.

Lemma trim_start_fixed c t :
  is_white_space c = false -> trim_start (c :: t) = c :: t.
Proof. intros H. simpl. now rewrite H. Qed.

Lemma trim_start_all_white r : Spec.all_white r -> trim_start r = [].
Proof.
  intros H. rewrite <- (app_nil_r r). now rewrite trim_start_white.
Qed.

Lemma trim_start_decompose s :
  exists l, s = l ++ trim_start s /\ Spec.all_white l.
Proof.
  induction s as [|c r [l [Heq Hl]]].
  - exists []. split; [reflexivity|constructor].
  - simpl. destruct (is_white_space c) eqn:Hc.
    + exists (c :: l). split; [simpl; now rewrite <- Heq|now constructor].
    + exists []. split; [reflexivity|constructor].
Qed.

Lemma trim_start_head s c t :
  trim_start s = c :: t -> is_white_space c = false.
Proof.
  induction s as [|d r IH]; simpl; [discriminate|].
  destruct (is_white_space d) eqn:Hd; [exact IH|].
  intros H. injection H as -> _. exact Hd.
Qed.

Lemma all_white_rev l : Spec.all_white l -> Spec.all_white (rev l).
Proof. unfold Spec.all_white. apply Forall_rev. Qed.

Lemma trim_end_decompose s :
  exists r, s = trim_end s ++ r /\ Spec.all_white r.
Proof.
  destruct (trim_start_decompose (rev s)) as [l [Heq Hl]].
  exists (rev l). split; [|now apply all_white_rev].
  unfold trim_end. rewrite <- rev_app_distr, <- Heq. now rewrite rev_involutive.
Qed.

Lemma trim_end_last s c t :
  trim_end s = t ++ [c] -> is_white_space c = false.
Proof.
  unfold trim_end. intros H.
  apply (f_equal (@rev _)) in H. rewrite rev_involutive, rev_app_distr in H.
  simpl in H. eapply trim_start_head; eassumption.
Qed.

Lemma trim_end_white x r :
  Spec.all_white r -> trim_end (x ++ r) = trim_end x.
Proof.
  intros H. unfold trim_end. rewrite rev_app_distr.
  rewrite trim_start_white; [reflexivity|now apply all_white_rev].
Qed.

Lemma trim_end_fixed t c :
  is_white_space c = false -> trim_end (t ++ [c]) = t ++ [c].
Proof.
  intros H. unfold trim_end. rewrite rev_app_distr. simpl rev at 2.
  simpl app. rewrite trim_start_fixed by assumption.
  change (c :: rev t) with ([c] ++ rev t).
  rewrite rev_app_distr, rev_involutive. reflexivity.
Qed.

Lemma trim_is_trimmed p : Spec.is_trimmed p (trim p).
Proof.
  unfold trim.
  destruct (trim_start_decompose p) as [l [Hl Hlw]].
  destruct (trim_end_decompose (trim_start p)) as [r [Hr Hrw]].
  exists l, r. repeat split; try assumption.
  - rewrite <- Hr. exact Hl.
  - intros c t' Ht. rewrite Ht in Hr. simpl in Hr.
    eapply trim_start_head; eassumption.
  - intros c t' Ht. eapply trim_end_last; eassumption.
Qed.

Lemma is_trimmed_trim p t : Spec.is_trimmed p t -> t = trim p.
Proof.
  intros (l & r & -> & Hl & Hr & Hhd & Hlast).
  unfold trim. rewrite trim_start_white by assumption.
  destruct t as [|c t'].
  - simpl. rewrite trim_start_all_white by assumption. reflexivity.
  - simpl app. rewrite trim_start_fixed by (eapply Hhd; reflexivity).
    change (c :: t' ++ r) with ((c :: t') ++ r).
    rewrite trim_end_white by assumption.
    destruct (exists_last (l := c :: t')) as [t'' [d Heq]]; [discriminate|].
    rewrite Heq. symmetry. apply trim_end_fixed. eapply Hlast; eassumption.
Qed.

Lemma Forall2_is_trimmed_map ps ts :
  Forall2 Spec.is_trimmed ps ts -> ts = map trim ps.
Proof.
  induction 1 as [|p t ps ts Hpt _ IH]; [reflexivity|].
  simpl. f_equal; [now apply is_trimmed_trim|exact IH].
Qed.

Lemma Forall2_map_trim ps : Forall2 Spec.is_trimmed ps (map trim ps).
Proof.
  induction ps; simpl; constructor; [apply trim_is_trimmed|assumption].
Qed.

Lemma filter_nonempty_to_boolean ts :
  filter (fun t => negb (List.length t =? 0)%nat) ts = filter to_boolean ts.
Proof.
  apply filter_ext. intros [|c t]; reflexivity.
Qed.

End StringLemmas.

(** ** Lemmas on the event loop *)

Section Observations.

Lemma eqb_eq a b : eqb a b = true <-> a = b.
Proof.
  revert b. induction a as [|x a IH]; intros [|y b]; simpl;
    try (split; [discriminate|congruence]); [tauto|].
  rewrite andb_true_iff, N.eqb_eq, IH.
  split; [intros [-> ->]; reflexivity|intros H; injection H; auto].
Qed.

Lemma fetches_app a b : fetches (a ++ b) = fetches a ++ fetches b.
Proof.
  induction a as [|[] a IH]; simpl; rewrite ?IH; reflexivity.
Qed.

Lemma status_writes_app a b :
  status_writes (a ++ b) = status_writes a ++ status_writes b.
Proof.
  induction a as [|[] a IH]; simpl; rewrite ?IH; reflexivity.
Qed.

Lemma results_writes_app a b :
  results_writes (a ++ b) = results_writes a ++ results_writes b.
Proof.
  induction a as [|[] a IH]; simpl; rewrite ?IH; reflexivity.
Qed.

Lemma uncaught_app a b : uncaught (a ++ b) = (uncaught a + uncaught b)%nat.
Proof.
  induction a as [|[] a IH]; simpl; rewrite ?IH; reflexivity.
Qed.

Lemma run_app es1 es2 pg :
  run (es1 ++ es2) pg =
  match run es1 pg with Some pg1 => run es2 pg1 | None => None end.
Proof.
  revert pg. induction es1 as [|e es1 IH]; intros pg; simpl; [reflexivity|].
  destruct (step e pg); [apply IH|reflexivity].
Qed.

(** One callback after its response, observed. *)
Lemma on_status_reply_obs o p pg :
  let pg' := on_status_reply o p pg in
  stage pg' = Polling {| taskId := taskId p;
                         interval := if terminal o then None else interval p;
                         inflight := inflight p |}
  /\ status_writes (trace pg') = status_writes (trace pg) ++ status_write_of o
  /\ results_writes (trace pg') = results_writes (trace pg) ++ results_write_of o
  /\ fetches (trace pg') = fetches (trace pg)
  /\ resultsDiv (doc pg') =
     (if terminal o then results_notice else resultsDiv (doc pg)).
Proof.
  destruct p as [id iv n].
  unfold on_status_reply, status_write_of, results_write_of, terminal, throw.
  destruct o as [| |data]; cbn [stage trace doc taskId interval inflight resultsDiv];
    rewrite ?status_writes_app, ?results_writes_app, ?fetches_app;
    cbn [status_writes results_writes fetches]; rewrite ?app_nil_r; auto.
  destruct (get (lit "status") (Json data)) as [status|];
    cbn [stage trace doc taskId interval inflight resultsDiv];
    rewrite ?status_writes_app, ?results_writes_app, ?fetches_app;
    cbn [status_writes results_writes fetches]; rewrite ?app_nil_r; auto.
  destruct (strict_eq_string status sentinel);
    [|destruct (to_string status)];
    cbn [stage trace doc taskId interval inflight resultsDiv];
    rewrite ?status_writes_app, ?results_writes_app, ?fetches_app;
    cbn [status_writes results_writes fetches]; rewrite ?app_nil_r; auto.
Qed.

(** One timer callback up to its request, observed. *)
Lemma interval_callback_obs p pg :
  interval p <> None ->
  let pg' := interval_callback p pg in
  (exists n, stage pg' = Polling {| taskId := taskId p;
                                    interval := interval p;
                                    inflight := n |})
  /\ status_writes (trace pg') = status_writes (trace pg)
  /\ results_writes (trace pg') = results_writes (trace pg)
  /\ fetches (trace pg') = fetches (trace pg) ++ query_of p
  /\ doc pg' = doc pg.
Proof.
  destruct p as [id iv n]. cbn [interval]. intros Hiv.
  unfold interval_callback, query_of, throw. cbn [taskId interval inflight].
  destruct iv as [delay|]; [|congruence].
  destruct (to_string id) as [t|];
    cbn [stage trace doc]; rewrite ?status_writes_app, ?results_writes_app,
      ?fetches_app; cbn [status_writes results_writes fetches];
    rewrite ?app_nil_r; repeat split; eauto.
Qed.

(** The branch of line 33. *)
Lemma on_status_reply_label data status s p pg :
  get (lit "status") (Json data) = Some status ->
  strict_eq_string status sentinel = false ->
  to_string status = Some s ->
  on_status_reply (Body data) p pg =
  {| doc := {| statusText := lit "Current Task: " ++ s;
               resultsDiv := resultsDiv (doc pg) |};
     stage := Polling p;
     trace := trace pg ++ [SetStatus (lit "Current Task: " ++ s)] |}.
Proof.
  intros Hget Hne Hs. unfold on_status_reply. now rewrite Hget, Hne, Hs.
Qed.

(** A reply delivered to a page that is polling. *)
Lemma step_status_reply o pg p pg' :
  stage pg = Polling p -> step (StatusReply o) pg = Some pg' ->
  exists n,
    inflight p = S n
    /\ pg' = on_status_reply o
               {| taskId := taskId p; interval := interval p; inflight := n |}
               pg.
Proof.
  intros Hst Hstep. unfold step in Hstep. rewrite Hst in Hstep.
  destruct (inflight p) as [|n]; [discriminate|].
  exists n. split; [reflexivity|congruence].
Qed.

End Observations.

Section Runs.

Lemma pollStatus_stage id pg :
  stage (pollStatus id pg) =
  Polling {| taskId := id; interval := Some 2000; inflight := 0 |}.
Proof. reflexivity. Qed.

(** What one event does to a page that is polling. *)
Lemma step_polling e pg p pg1 :
  stage pg = Polling p -> step e pg = Some pg1 ->
  exists p1,
    stage pg1 = Polling p1 /\ taskId p1 = taskId p
    /\ interval p1 =
       (if existsb terminal (status_replies [e]) then None else interval p)
    /\ status_writes (trace pg1) =
       status_writes (trace pg) ++ flat_map status_write_of (status_replies [e])
    /\ results_writes (trace pg1) =
       results_writes (trace pg) ++ flat_map results_write_of (status_replies [e])
    /\ fetches (trace pg1) =
       fetches (trace pg) ++ (match e with Tick => query_of p | _ => [] end).
Proof.
  intros Hst Hs. unfold step in Hs. rewrite Hst in Hs.
  destruct e as [|o|o].
  - cbn [status_replies existsb flat_map]. rewrite !app_nil_r.
    destruct (interval p) as [delay|] eqn:Hiv.
    + injection Hs as <-.
      assert (Hne : interval p <> None) by congruence.
      destruct (interval_callback_obs p pg Hne) as ([n Hn] & Hsw & Hrw & Hf & _).
      eexists. split; [exact Hn|]. cbn [taskId interval].
      repeat split; assumption.
    + injection Hs as <-. exists p. unfold query_of. rewrite Hiv, app_nil_r.
      repeat split; assumption.
  - discriminate.
  - destruct (inflight p) as [|n]; [discriminate|]. injection Hs as <-.
    destruct (on_status_reply_obs o
                {| taskId := taskId p; interval := interval p; inflight := n |}
                pg) as (Hn & Hsw & Hrw & Hf & _).
    cbn [taskId interval inflight] in Hn.
    eexists. split; [exact Hn|]. cbn [taskId interval].
    cbn [status_replies existsb flat_map]. rewrite orb_false_r, !app_nil_r.
    repeat split; assumption.
Qed.

(** The displays and the timer after a run, from the replies delivered. *)
Lemma run_polling es : forall pg p pg',
  stage pg = Polling p -> run es pg = Some pg' ->
  exists p',
    stage pg' = Polling p' /\ taskId p' = taskId p
    /\ interval p' =
       (if existsb terminal (status_replies es) then None else interval p)
    /\ status_writes (trace pg') =
       status_writes (trace pg) ++ flat_map status_write_of (status_replies es)
    /\ results_writes (trace pg') =
       results_writes (trace pg) ++ flat_map results_write_of (status_replies es).
Proof.
  induction es as [|e es IH]; intros pg p pg' Hst Hrun.
  - injection Hrun as <-. exists p. cbn. rewrite !app_nil_r. auto.
  - cbn [run] in Hrun. destruct (step e pg) as [pg1|] eqn:Hs; [|discriminate].
    destruct (step_polling e pg p pg1 Hst Hs)
      as (p1 & Hst1 & Hid1 & Hiv1 & Hsw1 & Hrw1 & _).
    destruct (IH pg1 p1 pg' Hst1 Hrun) as (p' & Hst' & Hid' & Hiv' & Hsw' & Hrw').
    exists p'. split; [exact Hst'|]. split; [congruence|].
    rewrite Hiv', Hsw', Hrw', Hiv1, Hsw1, Hrw1, <- !app_assoc.
    destruct e as [|o|o]; cbn [status_replies existsb flat_map app];
      rewrite ?app_nil_r; try (repeat split; reflexivity).
    repeat split. destruct (terminal o), (existsb terminal (status_replies es));
      reflexivity.
Qed.

(** The queries of a run: one per tick while the timer is registered. *)
Lemma run_fetches es : forall pg p pg' id,
  stage pg = Polling p -> to_string (taskId p) = Some id ->
  run es pg = Some pg' ->
  exists k,
    (k <= ticks es)%nat
    /\ fetches (trace pg') = fetches (trace pg) ++ repeat (status_request id) k
    /\ (timer pg' <> None -> k = ticks es)
    /\ (interval p = None -> k = O).
Proof.
  induction es as [|e es IH]; intros pg p pg' id Hst Hid Hrun.
  - injection Hrun as <-. exists O. cbn. rewrite app_nil_r. auto.
  - cbn [run] in Hrun. destruct (step e pg) as [pg1|] eqn:Hs; [|discriminate].
    destruct (step_polling e pg p pg1 Hst Hs)
      as (p1 & Hst1 & Hid1 & Hiv1 & _ & _ & Hf1).
    assert (Hid1' : to_string (taskId p1) = Some id) by congruence.
    destruct (IH pg1 p1 pg' id Hst1 Hid1' Hrun) as (k & Hle & Hf & Hon & Hoff).
    destruct (run_polling es pg1 p1 pg' Hst1 Hrun) as (p' & Hst' & _ & Hiv' & _).
    assert (Hmono : timer pg' <> None -> interval p1 <> None).
    { unfold timer. rewrite Hst', Hiv'.
      destruct (existsb terminal (status_replies es)); congruence. }
    destruct e as [|o|o]; cbn [ticks].
    + cbn [status_replies existsb] in Hiv1.
      unfold query_of in Hf1. rewrite Hid in Hf1.
      destruct (interval p) as [delay|] eqn:Hiv.
      * exists (S k). split; [lia|]. split; [|split].
        -- rewrite Hf, Hf1, <- app_assoc. reflexivity.
        -- intros H. now rewrite (Hon H).
        -- discriminate.
      * exists k. rewrite app_nil_r in Hf1. split; [lia|]. split; [|split].
        -- congruence.
        -- intros H. exfalso. apply (Hmono H). congruence.
        -- auto.
    + unfold step in Hs. rewrite Hst in Hs. discriminate.
    + exists k. rewrite app_nil_r in Hf1. split; [lia|]. split; [congruence|].
      split; [exact Hon|]. intros Hnone. apply Hoff. rewrite Hiv1.
      destruct (existsb terminal (status_replies [StatusReply o])); congruence.
Qed.

(** Once the timer is cleared no query is issued, whatever the task. *)
Lemma run_timer_off es : forall pg p pg',
  stage pg = Polling p -> interval p = None -> run es pg = Some pg' ->
  fetches (trace pg') = fetches (trace pg) /\ timer pg' = None.
Proof.
  induction es as [|e es IH]; intros pg p pg' Hst Hiv Hrun.
  - injection Hrun as <-. unfold timer. rewrite Hst. auto.
  - cbn [run] in Hrun. destruct (step e pg) as [pg1|] eqn:Hs; [|discriminate].
    destruct (step_polling e pg p pg1 Hst Hs)
      as (p1 & Hst1 & _ & Hiv1 & _ & _ & Hf1).
    assert (Hiv1' : interval p1 = None).
    { rewrite Hiv1, Hiv. now destruct (existsb _ _). }
    destruct (IH pg1 p1 pg' Hst1 Hiv1' Hrun) as [Hf Ht].
    split; [|exact Ht]. rewrite Hf, Hf1.
    unfold query_of. rewrite Hiv. destruct e; apply app_nil_r.
Qed.

(** With the timer cleared and nothing in flight the page is at rest. *)
Lemma run_at_rest es : forall pg p pg',
  stage pg = Polling p -> interval p = None -> inflight p = O ->
  run es pg = Some pg' -> pg' = pg.
Proof.
  induction es as [|e es IH]; intros pg p pg' Hst Hiv Hn Hrun.
  - now injection Hrun.
  - cbn [run] in Hrun. unfold step in Hrun. rewrite Hst in Hrun.
    destruct e as [|o|o]; try discriminate.
    + rewrite Hiv in Hrun. eapply IH; eassumption.
    + rewrite Hn in Hrun. discriminate.
Qed.

(** After an uncaught failure of the listener nothing happens any more. *)
Lemma run_aborted es : forall pg pg',
  stage pg = Aborted -> run es pg = Some pg' -> pg' = pg.
Proof.
  induction es as [|e es IH]; intros pg pg' Hst Hrun.
  - now injection Hrun.
  - cbn [run] in Hrun. unfold step in Hrun. rewrite Hst in Hrun.
    destruct e as [|o|o]; try discriminate. now apply IH.
Qed.

Lemma query_of_task p :
  Forall (fun r => exists t, to_string (taskId p) = Some t
                             /\ r = status_request t) (query_of p).
Proof.
  unfold query_of. destruct (interval p); [|constructor].
  destruct (to_string (taskId p)) as [t|]; constructor; eauto.
Qed.

(** Every query of the loop is the request of line 25 for its task. *)
Lemma run_queries es : forall pg p pg',
  stage pg = Polling p -> run es pg = Some pg' ->
  exists qs,
    fetches (trace pg') = fetches (trace pg) ++ qs
    /\ Forall (fun r => exists t, to_string (taskId p) = Some t
                                  /\ r = status_request t) qs.
Proof.
  induction es as [|e es IH]; intros pg p pg' Hst Hrun.
  - injection Hrun as <-. exists []. rewrite app_nil_r. auto.
  - cbn [run] in Hrun. destruct (step e pg) as [pg1|] eqn:Hs; [|discriminate].
    destruct (step_polling e pg p pg1 Hst Hs)
      as (p1 & Hst1 & Hid1 & _ & _ & _ & Hf1).
    destruct (IH pg1 p1 pg' Hst1 Hrun) as (qs & Hf & Hqs).
    rewrite Hid1 in Hqs.
    exists ((match e with Tick => query_of p | _ => [] end) ++ qs).
    split; [rewrite Hf, Hf1; apply eq_sym, app_assoc|].
    apply Forall_app. split; [|exact Hqs].
    destruct e; [apply query_of_task|constructor|constructor].
Qed.

(** While the listener awaits the response nothing happens; then the
    listener resumes. *)
Lemma run_submitting es : forall pg pg',
  stage pg = Submitting -> run es pg = Some pg' ->
  pg' = pg \/ exists o es2, run es2 (on_analyze_reply o pg) = Some pg'.
Proof.
  induction es as [|e es IH]; intros pg pg' Hst Hrun.
  - left. now injection Hrun.
  - cbn [run] in Hrun. unfold step in Hrun. rewrite Hst in Hrun.
    destruct e as [|o|o]; try discriminate.
    + now apply IH.
    + right. eauto.
Qed.

Lemma pollStatus_fetches id pg :
  fetches (trace (pollStatus id (task_started pg))) = fetches (trace pg).
Proof.
  cbn [pollStatus task_started trace]. rewrite !fetches_app.
  cbn [fetches]. now rewrite !app_nil_r.
Qed.

(** The requests issued once the listener has resumed are status queries. *)
Lemma after_reply_fetches o es pg pg' :
  run es (on_analyze_reply o pg) = Some pg' ->
  exists qs,
    fetches (trace pg') = fetches (trace pg) ++ qs
    /\ Forall (fun r => exists t, r = status_request t) qs.
Proof.
  intros Hrun.
  assert (Habort : run es (throw Aborted pg) = Some pg' ->
                   exists qs, fetches (trace pg') = fetches (trace pg) ++ qs
                     /\ Forall (fun r => exists t, r = status_request t) qs).
  { intros H. apply run_aborted in H; [|reflexivity]. subst pg'.
    exists []. cbn [throw trace]. rewrite fetches_app. auto. }
  unfold on_analyze_reply in Hrun.
  destruct o as [| |data]; try (now apply Habort).
  destruct (get (lit "task_id") (Json data)) as [id|]; [|now apply Habort].
  destruct (run_queries es _ _ pg' (pollStatus_stage id (task_started pg)) Hrun)
    as (qs & Hf & Hqs).
  exists qs. rewrite Hf, pollStatus_fetches. split; [reflexivity|].
  eapply Forall_impl; [|exact Hqs]. intros r (t & _ & ->). eauto.
Qed.

Lemma status_replies_app es1 es2 :
  status_replies (es1 ++ es2) = status_replies es1 ++ status_replies es2.
Proof.
  induction es1 as [|[] es1 IH]; cbn; rewrite ?IH; reflexivity.
Qed.

End Runs.

(** ** The claims *)

Section Claims.

Lemma results_without_terminal l :
  existsb terminal l = false -> flat_map results_write_of l = [].
Proof.
  induction l as [|o l IH]; [reflexivity|].
  cbn [existsb flat_map]. rewrite orb_false_iff. intros [Ho Hl].
  unfold results_write_of at 1. rewrite Ho. now apply IH.
Qed.

Lemma results_count l :
  flat_map results_write_of l =
  repeat results_notice (List.length (filter terminal l)).
Proof.
  induction l as [|o l IH]; [reflexivity|].
  cbn [flat_map filter]. unfold results_write_of at 1.
  destruct (terminal o); cbn; now rewrite IH.
Qed.

(** [pollStatus] registers the timer with a delay of 2000 and returns
    without a query of its own. *)
Lemma pollStatus_registers_timer id pg :
  timer (pollStatus id pg) = Some 2000
  /\ trace (pollStatus id pg) = trace pg ++ [SetInterval 2000]
  /\ fetches (trace (pollStatus id pg)) = fetches (trace pg).
Proof.
  repeat split. cbn [pollStatus trace]. rewrite fetches_app. apply app_nil_r.
Qed.

(** C2: the list derived from the [comparison_urls] field is the one the
    specification describes (split on commas, trim each piece, drop the
    empty ones, keep the order), and it is the only list that fits the
    description; ["a, b ,, c"] gives [["a"; "b"; "c"]] and the empty
    string gives the empty list. *)
Theorem comparison_urls_split_trim_filter :
  (forall s out, Spec.comparison_urls s out <-> out = comparison_urls_of s)
  /\ comparison_urls_of (lit "a, b ,, c") = [lit "a"; lit "b"; lit "c"]
  /\ comparison_urls_of (lit "") = [].
Proof.
  split; [|split; reflexivity].
  intros s out. split.
  - intros (ps & ts & (Hnn & Hjoin & Hfree) & Htrim & ->).
    unfold comparison_urls_of.
    rewrite filter_nonempty_to_boolean.
    rewrite (Forall2_is_trimmed_map _ _ Htrim).
    rewrite <- Hjoin. now rewrite split_of_join.
  - intros ->. exists (split comma s), (map trim (split comma s)).
    split; [|split].
    + split; [apply split_not_nil|].
      split; [apply join_split|apply split_sep_free].
    + apply Forall2_map_trim.
    + unfold comparison_urls_of. now rewrite filter_nonempty_to_boolean.
Qed.


Lemma filter_terminal_nil l :
  (forall o, In o l -> terminal o = false) -> filter terminal l = [].
Proof.
  induction l as [|o l IH]; intros H; [reflexivity|].
  cbn [filter]. rewrite (H o (or_introl eq_refl)).
  apply IH. intros o' Ho'. apply H. now right.
Qed.

(** What one reply adds to the count of completion texts. *)
Lemma status_write_completions o :
  count_occ jsstring_eq_dec (status_write_of o) completed_text =
  (if terminal o then 1 else 0)%nat.
Proof.
  unfold status_write_of, terminal.
  destruct o as [| |data]; try reflexivity.
  destruct (get (lit "status") (Json data)) as [status|]; [|reflexivity].
  destruct (strict_eq_string status sentinel).
  - cbn [count_occ].
    destruct (jsstring_eq_dec completed_text completed_text); congruence.
  - destruct (to_string status) as [s|]; [|reflexivity].
    cbn [count_occ].
    destruct (jsstring_eq_dec (lit "Current Task: " ++ s) completed_text)
      as [E|]; [|reflexivity].
    cbn in E. discriminate.
Qed.

Lemma status_writes_completions l :
  count_occ jsstring_eq_dec (flat_map status_write_of l) completed_text =
  List.length (filter terminal l).
Proof.
  induction l as [|o l IH]; [reflexivity|].
  cbn [flat_map filter]. rewrite count_occ_app, IH, status_write_completions.
  destruct (terminal o); reflexivity.
Qed.

(** C1 (as amended): once a status reply carrying ['Analysis Completed']
    has been handled, the timer is cleared for good and no further status
    query is issued, whatever happens next; the completion signal (the
    completion text on the status display and the results notice) occurs
    once for that reply and once more for every other terminal reply the
    run handles, before it or after it; so it occurs exactly once provided
    no other terminal reply is handled, whatever else was in flight. *)
Theorem completion_stops_polling :
  forall id pg0 es1 o es2 pg1 pg2 pg3,
    run es1 (pollStatus id pg0) = Some pg1 ->
    terminal o = true ->
    step (StatusReply o) pg1 = Some pg2 ->
    run es2 pg2 = Some pg3 ->
    timer pg3 = None
    /\ fetches (trace pg3) = fetches (trace pg2)
    /\ results_writes (trace pg3) =
       results_writes (trace pg0)
         ++ repeat results_notice
              (S (terminal_replies es1 + terminal_replies es2))
    /\ completions (trace pg3) =
       (completions (trace pg0)
        + S (terminal_replies es1 + terminal_replies es2))%nat
    /\ ((forall o', In o' (status_replies es1 ++ status_replies es2) ->
                    terminal o' = false) ->
        results_writes (trace pg3) = results_writes (trace pg0) ++ [results_notice]
        /\ completions (trace pg3) = S (completions (trace pg0))).
Proof.
  intros id pg0 es1 o es2 pg1 pg2 pg3 Hrun1 Hterm Hstep Hrun2.
  destruct (run_polling es1 _ _ pg1 (pollStatus_stage id pg0) Hrun1)
    as (p1 & Hst1 & _).
  destruct (step_polling _ pg1 p1 pg2 Hst1 Hstep)
    as (p2 & Hst2 & _ & Hiv2 & _).
  cbn [status_replies existsb] in Hiv2.
  rewrite Hterm in Hiv2. cbn [orb] in Hiv2.
  destruct (run_timer_off es2 pg2 p2 pg3 Hst2 Hiv2 Hrun2) as [Hf Ht].
  assert (Hall : run (es1 ++ StatusReply o :: es2) (pollStatus id pg0)
                 = Some pg3).
  { rewrite run_app, Hrun1. cbn [run]. now rewrite Hstep. }
  destruct (run_polling _ _ _ pg3 (pollStatus_stage id pg0) Hall)
    as (_ & _ & _ & _ & Hsw & Hrw).
  assert (Hcount : List.length
                     (filter terminal
                        (status_replies (es1 ++ StatusReply o :: es2)))
                   = S (terminal_replies es1 + terminal_replies es2)).
  { rewrite status_replies_app. cbn [status_replies].
    rewrite filter_app. cbn [filter]. rewrite Hterm.
    rewrite length_app. cbn [List.length]. unfold terminal_replies. lia. }
  assert (Hres : results_writes (trace pg3) =
                 results_writes (trace pg0)
                   ++ repeat results_notice
                        (S (terminal_replies es1 + terminal_replies es2))).
  { rewrite Hrw, results_count, Hcount. cbn [pollStatus trace].
    rewrite results_writes_app. cbn [results_writes].
    now rewrite app_nil_r. }
  assert (Hcom : completions (trace pg3) =
                 (completions (trace pg0)
                  + S (terminal_replies es1 + terminal_replies es2))%nat).
  { unfold completions. rewrite Hsw, count_occ_app, status_writes_completions.
    rewrite Hcount. cbn [pollStatus trace]. rewrite status_writes_app.
    cbn [status_writes]. now rewrite app_nil_r. }
  split; [exact Ht|]. split; [exact Hf|]. split; [exact Hres|].
  split; [exact Hcom|].
  intros Hnone.
  assert (H1 : terminal_replies es1 = O).
  { unfold terminal_replies. rewrite filter_terminal_nil; [reflexivity|].
    intros o' Ho'. apply Hnone. apply in_or_app. now left. }
  assert (H2 : terminal_replies es2 = O).
  { unfold terminal_replies. rewrite filter_terminal_nil; [reflexivity|].
    intros o' Ho'. apply Hnone. apply in_or_app. now right. }
  rewrite Hres, Hcom, H1, H2. split; [reflexivity|lia].
Qed.

(** Two queries are in flight when the terminal reply is handled; the
    other one is answered ["Running"] afterwards: the completion signal
    occurs once. *)
Lemma completion_stops_polling_witness :
  exists pg1 pg2 pg3,
    run [Tick; Tick] Sample.polling = Some pg1
    /\ in_flight pg1 = 2%nat
    /\ step (StatusReply (Sample.status "Analysis Completed")) pg1 = Some pg2
    /\ run [StatusReply (Sample.status "Running"); Tick] pg2 = Some pg3
    /\ timer pg3 = None
    /\ fetches (trace pg3) = fetches (trace pg2)
    /\ results_writes (trace pg3) = [] ++ [results_notice]
    /\ completions (trace pg3) = 1%nat.
Proof.
  do 3 eexists. do 4 (split; [reflexivity|]).
  destruct (completion_stops_polling
              (Json (JStr (lit "t1"))) Sample.announced
              [Tick; Tick]
              (Sample.status "Analysis Completed")
              [StatusReply (Sample.status "Running"); Tick]
              _ _ _ eq_refl eq_refl eq_refl eq_refl)
    as (Ht & Hf & _ & _ & Honce).
  assert (Hnone : forall o',
             In o' (status_replies [Tick; Tick]
                      ++ status_replies
                           [StatusReply (Sample.status "Running"); Tick]) ->
             terminal o' = false).
  { intros o' [<-|[]]. reflexivity. }
  destruct (Honce Hnone) as [Hr Hc].
  exact (conj Ht (conj Hf (conj Hr Hc))).
Defined.

(** C1 (as stated) fails: two queries are in flight (the first reply takes
    longer than one period) and both are answered ['Analysis Completed'];
    the completion signal occurs twice. *)
Lemma completion_signal_repeats :
  exists pg,
    run [Tick; Tick;
         StatusReply (Sample.status "Analysis Completed");
         StatusReply (Sample.status "Analysis Completed")]
        Sample.polling = Some pg
    /\ results_writes (trace pg) = [results_notice; results_notice]
    /\ status_writes (trace pg) =
       [lit "Task started..."; completed_text; completed_text].
Proof. eexists. repeat split. Qed.

Lemma no_terminal_reply l :
  (forall o, In o l -> terminal o = false) -> existsb terminal l = false.
Proof.
  intros H. destruct (existsb terminal l) eqn:E; [|reflexivity].
  apply existsb_exists in E as (o & Hin & Ho). rewrite (H o Hin) in Ho.
  discriminate.
Qed.

Lemma eqb_neq a b : a <> b -> eqb a b = false.
Proof.
  intros H. destruct (eqb a b) eqn:E; [|reflexivity].
  apply eqb_eq in E. contradiction.
Qed.

(** C3 (as amended): a status reply whose status string differs from
    ['Analysis Completed'] sets the status display to ["Current Task: "]
    followed by that string verbatim, and leaves the timer as it was; when
    the replies are [{"status": "Queued"}], [{"status": "Running"}] and
    [{"status": "Analysis Completed"}], in that order and however the
    ticks fall between them, the status display receives exactly
    ["Current Task: Queued"], ["Current Task: Running"] and
    ["Analysis Completed!"], and the results notice is written once. *)
Theorem in_progress_status_is_labelled :
  (forall pg p data s pg',
      stage pg = Polling p ->
      get (lit "status") (Json data) = Some (Json (JStr s)) ->
      s <> sentinel ->
      step (StatusReply (Body data)) pg = Some pg' ->
      statusText (doc pg') = lit "Current Task: " ++ s
      /\ trace pg' = trace pg ++ [SetStatus (lit "Current Task: " ++ s)]
      /\ timer pg' = timer pg)
  /\ (forall id pg0 es pg,
        run es (pollStatus id pg0) = Some pg ->
        status_replies es =
        [Sample.status "Queued"; Sample.status "Running";
         Sample.status "Analysis Completed"] ->
        status_writes (trace pg) =
        status_writes (trace pg0)
          ++ [lit "Current Task: Queued"; lit "Current Task: Running";
              lit "Analysis Completed!"]
        /\ results_writes (trace pg) =
           results_writes (trace pg0) ++ [results_notice]).
Proof.
  split.
  - intros pg p data s pg' Hst Hget Hne Hstep.
    destruct (step_status_reply _ pg p pg' Hst Hstep) as (n & _ & ->).
    rewrite (on_status_reply_label data _ s _ pg Hget);
      [|cbn [strict_eq_string]; now apply eqb_neq|reflexivity].
    unfold timer. rewrite Hst. repeat split.
  - intros id pg0 es pg Hrun Hreplies.
    destruct (run_polling es _ _ pg (pollStatus_stage id pg0) Hrun)
      as (p' & _ & _ & _ & Hsw & Hrw).
    rewrite Hsw, Hrw, Hreplies. cbn [pollStatus trace].
    rewrite status_writes_app, results_writes_app.
    cbn [status_writes results_writes]. rewrite !app_nil_r.
    split; reflexivity.
Qed.

(** The three replies arrive one per period. *)
Lemma in_progress_status_is_labelled_witness :
  (exists pg',
      step (StatusReply (Sample.status "Queued"))
           (interval_callback
              {| taskId := Json (JStr (lit "t1")); interval := Some 2000;
                 inflight := 0 |} Sample.polling) = Some pg'
      /\ statusText (doc pg') = lit "Current Task: " ++ lit "Queued")
  /\ (exists pg,
        run [Tick; StatusReply (Sample.status "Queued");
             Tick; StatusReply (Sample.status "Running");
             Tick; StatusReply (Sample.status "Analysis Completed")]
            Sample.polling = Some pg
        /\ status_writes (trace pg) =
           [lit "Task started..."]
             ++ [lit "Current Task: Queued"; lit "Current Task: Running";
                 lit "Analysis Completed!"]).
Proof.
  split.
  - eexists. split; [reflexivity|].
    refine (proj1 (proj1 in_progress_status_is_labelled
                     (interval_callback
                        {| taskId := Json (JStr (lit "t1"));
                           interval := Some 2000; inflight := 0 |}
                        Sample.polling)
                     {| taskId := Json (JStr (lit "t1"));
                        interval := Some 2000; inflight := 1 |}
                     (JObj [(lit "status", JStr (lit "Queued"))])
                     (lit "Queued") _ eq_refl eq_refl _ eq_refl)).
    intros H. vm_compute in H. discriminate.
  - eexists. split; [reflexivity|].
    exact (proj1 (proj2 in_progress_status_is_labelled
                    (Json (JStr (lit "t1"))) Sample.announced
                    [Tick; StatusReply (Sample.status "Queued");
                     Tick; StatusReply (Sample.status "Running");
                     Tick; StatusReply (Sample.status "Analysis Completed")]
                    _ eq_refl eq_refl)).
Defined.

(** C3 (as stated) fails: after the reply [{"status": "Queued"}] the
    status display holds ["Current Task: Queued"], not ["Queued"]. *)
Lemma status_display_is_prefixed :
  exists pg,
    run [Tick; StatusReply (Sample.status "Queued")] Sample.polling = Some pg
    /\ statusText (doc pg) = lit "Current Task: Queued"
    /\ statusText (doc pg) <> lit "Queued"
    /\ status_writes (trace pg) =
       [lit "Task started..."; lit "Current Task: Queued"].
Proof.
  eexists. split; [reflexivity|]. split; [reflexivity|].
  split; [|reflexivity]. intros H. vm_compute in H. discriminate.
Qed.

(** C5: as long as no reply carries ['Analysis Completed'] (whatever else
    the replies are, failures included) the timer stays registered with
    its delay of 2000, every period that has elapsed has issued one status
    query, and the next period issues one more: nothing but the terminal
    status ends the loop. *)
Theorem polling_never_gives_up :
  forall id pg0 es pg,
    run es (pollStatus id pg0) = Some pg ->
    (forall o, In o (status_replies es) -> terminal o = false) ->
    timer pg = Some 2000
    /\ (forall t, to_string id = Some t ->
         fetches (trace pg) =
         fetches (trace pg0) ++ repeat (status_request t) (ticks es))
    /\ (exists pg',
          step Tick pg = Some pg' /\ timer pg' = Some 2000
          /\ forall t, to_string id = Some t ->
               fetches (trace pg') = fetches (trace pg) ++ [status_request t]).
Proof.
  intros id pg0 es pg Hrun Hnone.
  apply no_terminal_reply in Hnone.
  destruct (run_polling es _ _ pg (pollStatus_stage id pg0) Hrun)
    as (p' & Hst' & Hid' & Hiv' & _).
  rewrite Hnone in Hiv'. cbn [interval taskId] in Hiv', Hid'.
  assert (Ht : timer pg = Some 2000) by (unfold timer; now rewrite Hst').
  split; [exact Ht|]. split.
  - intros t Hid.
    destruct (run_fetches es _ _ pg t (pollStatus_stage id pg0) Hid Hrun)
      as (k & _ & Hf & Hon & _).
    rewrite Hf, Hon by congruence.
    cbn [pollStatus trace]. rewrite fetches_app. cbn [fetches].
    now rewrite app_nil_r.
  - assert (Hne : interval p' <> None) by congruence.
    destruct (interval_callback_obs p' pg Hne) as ([n Hn] & _ & _ & Hf & _).
    exists (interval_callback p' pg). split; [|split].
    + unfold step. now rewrite Hst', Hiv'.
    + unfold timer. rewrite Hn. exact Hiv'.
    + intros t Hid. rewrite Hf. unfold query_of. now rewrite Hiv', Hid', Hid.
Qed.

(** Five periods, with replies ["Queued"], a network failure, a body that
    is not JSON and ["Running"]. *)
Lemma polling_never_gives_up_witness :
  exists pg,
    run [Tick; StatusReply (Sample.status "Queued"); Tick; Tick;
         StatusReply NetworkError; StatusReply NotJson; Tick; Tick;
         StatusReply (Sample.status "Running")]
        Sample.polling = Some pg
    /\ timer pg = Some 2000
    /\ fetches (trace pg) =
       fetches (trace Sample.announced)
         ++ repeat (status_request (lit "t1")) 5.
Proof.
  eexists. split; [reflexivity|].
  assert (Hnone : forall o,
             In o [Sample.status "Queued"; NetworkError; NotJson;
                   Sample.status "Running"] -> terminal o = false).
  { intros o [<-|[<-|[<-|[<-|[]]]]]; reflexivity. }
  destruct (polling_never_gives_up
              (Json (JStr (lit "t1"))) Sample.announced
              [Tick; StatusReply (Sample.status "Queued"); Tick; Tick;
               StatusReply NetworkError; StatusReply NotJson; Tick; Tick;
               StatusReply (Sample.status "Running")]
              _ eq_refl Hnone) as (Ht & Hf & _).
  exact (conj Ht (Hf (lit "t1") eq_refl)).
Defined.

(** C6: when the response to the submission yields a [task_id], every
    request issued afterwards is a GET of ["/results/"] followed by that
    identifier as the template literal renders it (a string identifier is
    rendered as it is), for as long as the loop runs. *)
Theorem status_queries_use_task_id :
  forall formData d data id es pg,
    get (lit "task_id") (Json data) = Some id ->
    run (AnalyzeReply (Body data) :: es) (on_submit formData d) = Some pg ->
    exists queries,
      fetches (trace pg) = fetches (trace (on_submit formData d)) ++ queries
      /\ Forall (fun r => exists t,
                     to_string id = Some t
                     /\ (forall s, id = Json (JStr s) -> t = s)
                     /\ r = {| url := lit "/results/" ++ t;
                               method := lit "GET";
                               headers := [];
                               body := None |}) queries.
Proof.
  intros formData d data id es pg Hid Hrun.
  cbn [run] in Hrun.
  destruct (step (AnalyzeReply (Body data)) (on_submit formData d))
    as [pg1|] eqn:Hs; [|discriminate].
  unfold step in Hs.
  destruct (stage (on_submit formData d)); try discriminate.
  assert (Hpg1 : pg1 = pollStatus id (task_started (on_submit formData d))).
  { unfold on_analyze_reply in Hs. rewrite Hid in Hs. congruence. }
  subst pg1.
  destruct (run_queries es _ _ pg (pollStatus_stage id _) Hrun)
    as (qs & Hf & Hqs).
  exists qs. rewrite Hf, pollStatus_fetches. split; [reflexivity|].
  eapply Forall_impl; [|exact Hqs].
  cbn [taskId]. intros r (t & Ht & ->). exists t.
  split; [exact Ht|]. split; [|reflexivity].
  intros s ->. cbn in Ht. congruence.
Qed.

(** The server answers [{"task_id": "t1"}]; three periods elapse, two
    replies arrive. *)
Lemma status_queries_use_task_id_witness :
  exists pg,
    run (AnalyzeReply (Body Sample.task_created)
           :: [Tick; StatusReply (Sample.status "Queued"); Tick; Tick;
               StatusReply (Sample.status "Running")])
        (on_submit Sample.form Sample.blank) = Some pg
    /\ exists queries,
         fetches (trace pg) =
         fetches (trace (on_submit Sample.form Sample.blank)) ++ queries
         /\ Forall (fun r => exists t,
                        to_string (Json (JStr (lit "t1"))) = Some t
                        /\ (forall s, Json (JStr (lit "t1")) = Json (JStr s) -> t = s)
                        /\ r = {| url := lit "/results/" ++ t;
                                  method := lit "GET";
                                  headers := [];
                                  body := None |}) queries.
Proof.
  eexists. split; [reflexivity|].
  exact (status_queries_use_task_id
           Sample.form Sample.blank Sample.task_created
           (Json (JStr (lit "t1")))
           [Tick; StatusReply (Sample.status "Queued"); Tick; Tick;
            StatusReply (Sample.status "Running")]
           _ eq_refl eq_refl).
Defined.

Lemma status_request_not_analyze qs :
  Forall (fun r => exists t, r = status_request t) qs ->
  filter (fun r => eqb (url r) (lit "/analyze")) qs = [].
Proof.
  induction 1 as [|r qs [t ->] _ IH]; [reflexivity|].
  cbn [filter]. rewrite IH. reflexivity.
Qed.

(** C7: a submission of a form holding the two fields issues, before
    anything else, one request: a POST to [/analyze] whose only header is
    [Content-Type: application/json] and whose body is the JSON text of an
    object with exactly the members [main_url], the field as it is, and
    [comparison_urls], the derived array of strings; no other request to
    [/analyze] is issued, whatever follows. *)
Theorem submission_issues_one_analyze_request :
  forall formData d m c es pg,
    form_get (lit "main_url") formData = Some m ->
    form_get (lit "comparison_urls") formData = Some c ->
    run es (on_submit formData d) = Some pg ->
    let req :=
      {| url := lit "/analyze";
         method := lit "POST";
         headers := [(lit "Content-Type", lit "application/json")];
         body := Some (JSON_stringify
                         (JObj [(lit "main_url", JStr m);
                                (lit "comparison_urls",
                                 JArr (map JStr (comparison_urls_of c)))])) |} in
    trace (on_submit formData d) = [PreventDefault; Fetch req]
    /\ (exists queries, fetches (trace pg) = req :: queries)
    /\ filter (fun r => eqb (url r) (lit "/analyze")) (fetches (trace pg)) = [req].
Proof.
  intros formData d m c es pg Hm Hc Hrun req.
  assert (Hsub : on_submit formData d =
                 {| doc := d; stage := Submitting;
                    trace := [PreventDefault; Fetch req] |}).
  { unfold on_submit. rewrite Hm, Hc. reflexivity. }
  rewrite Hsub in *. split; [reflexivity|].
  apply run_submitting in Hrun; [|reflexivity].
  destruct Hrun as [->|(o & es2 & Hrun)].
  - split; [exists []; reflexivity|reflexivity].
  - apply after_reply_fetches in Hrun as (qs & Hf & Hqs).
    cbn [trace fetches app] in Hf. rewrite Hf. split; [eauto|].
    cbn [filter url req]. change (eqb (lit "/analyze") (lit "/analyze")) with true.
    cbv iota. now rewrite status_request_not_analyze.
Qed.

(** The sample form, the task created and polled for two periods. *)
Lemma submission_issues_one_analyze_request_witness :
  exists pg,
    run [Tick; AnalyzeReply (Body Sample.task_created); Tick; Tick]
        (on_submit Sample.form Sample.blank) = Some pg
    /\ trace (on_submit Sample.form Sample.blank) =
       [PreventDefault;
        Fetch {| url := lit "/analyze";
                 method := lit "POST";
                 headers := [(lit "Content-Type", lit "application/json")];
                 body := Some (JSON_stringify
                                 (JObj [(lit "main_url", JStr (lit "http://x"));
                                        (lit "comparison_urls",
                                         JArr [JStr (lit "a"); JStr (lit "b");
                                               JStr (lit "c")])])) |}]
    /\ List.length
         (filter (fun r => eqb (url r) (lit "/analyze")) (fetches (trace pg)))
       = 1%nat.
Proof.
  eexists. split; [reflexivity|].
  destruct (submission_issues_one_analyze_request
              Sample.form Sample.blank (lit "http://x") (lit "a, b ,, c")
              [Tick; AnalyzeReply (Body Sample.task_created); Tick; Tick]
              _ eq_refl eq_refl eq_refl) as (Htr & _ & Hone).
  split; [exact Htr|]. exact (f_equal (@List.length request) Hone).
Defined.

(** C8: when the request of a submission fails, or its response is not
    JSON, the listener ends with an unhandled rejection and that is all:
    the displays are as they were, no status text is written, no timer is
    registered and no status query is ever issued. *)
Theorem failed_submission_aborts_silently :
  forall formData d o es pg,
    o = NetworkError \/ o = NotJson ->
    run (AnalyzeReply o :: es) (on_submit formData d) = Some pg ->
    doc pg = d
    /\ stage pg = Aborted
    /\ trace pg = trace (on_submit formData d) ++ [Uncaught]
    /\ status_writes (trace pg) = []
    /\ results_writes (trace pg) = []
    /\ timer pg = None
    /\ List.length (fetches (trace pg)) = 1%nat.
Proof.
  intros formData d o es pg Ho Hrun.
  cbn [run] in Hrun.
  destruct (step (AnalyzeReply o) (on_submit formData d)) as [pg1|] eqn:Hs;
    [|discriminate].
  unfold step in Hs.
  assert (Hsub : exists req,
             on_submit formData d =
             {| doc := d; stage := Submitting;
                trace := [PreventDefault; Fetch req] |}).
  { revert Hs. unfold on_submit.
    destruct (form_get (lit "comparison_urls") formData);
      [eauto|discriminate]. }
  destruct Hsub as [req Hsub]. rewrite Hsub in *. cbn [stage] in Hs.
  assert (Hpg1 : pg1 = throw Aborted
                         {| doc := d; stage := Submitting;
                            trace := [PreventDefault; Fetch req] |}).
  { destruct Ho as [-> | ->]; cbn [on_analyze_reply] in Hs; congruence. }
  subst pg1. apply run_aborted in Hrun; [|reflexivity]. subst pg.
  repeat split.
Qed.

(** The sample form, once with a network failure and once with a body
    that does not parse. *)
Lemma failed_submission_aborts_silently_witness :
  (exists pg,
      run (AnalyzeReply NetworkError :: [Tick; Tick])
          (on_submit Sample.form Sample.blank) = Some pg
      /\ doc pg = Sample.blank /\ stage pg = Aborted)
  /\ (exists pg,
        run (AnalyzeReply NotJson :: [Tick])
            (on_submit Sample.form Sample.blank) = Some pg
        /\ doc pg = Sample.blank /\ stage pg = Aborted).
Proof.
  split; eexists; (split; [reflexivity|]).
  - destruct (failed_submission_aborts_silently
                Sample.form Sample.blank NetworkError [Tick; Tick] _
                (or_introl eq_refl) eq_refl) as (Hd & Hs & _).
    exact (conj Hd Hs).
  - destruct (failed_submission_aborts_silently
                Sample.form Sample.blank NotJson [Tick] _
                (or_intror eq_refl) eq_refl) as (Hd & Hs & _).
    exact (conj Hd Hs).
Defined.

Lemma strict_eq_string_iff v literal :
  strict_eq_string v literal = true <-> v = Json (JStr literal).
Proof.
  destruct v as [|[]]; cbn [strict_eq_string];
    try (split; [discriminate|congruence]).
  rewrite eqb_eq. split; congruence.
Qed.

Lemma terminal_iff o :
  terminal o = true <->
  exists data, o = Body data
               /\ get (lit "status") (Json data) = Some (Json (JStr sentinel)).
Proof.
  unfold terminal. split.
  - destruct o as [| |data]; try discriminate.
    destruct (get (lit "status") (Json data)) as [status|] eqn:Hget;
      [|discriminate].
    intros H. apply strict_eq_string_iff in H. subst status.
    exists data. split; [reflexivity|exact Hget].
  - intros (data & -> & ->). now apply strict_eq_string_iff.
Qed.

(** A reply without the terminal status either writes a label to the
    status display or throws; nothing else. *)
Lemma on_status_reply_in_progress o p pg :
  terminal o = false ->
  let pg' := on_status_reply o p pg in
  trace pg' = trace pg ++ [SetStatus (statusText (doc pg'))]
  \/ (trace pg' = trace pg ++ [Uncaught] /\ doc pg' = doc pg).
Proof.
  unfold terminal, on_status_reply, throw.
  destruct o as [| |data]; try (right; split; reflexivity).
  destruct (get (lit "status") (Json data)) as [status|];
    [|right; split; reflexivity].
  intros ->. destruct (to_string status);
    [left; reflexivity|right; split; reflexivity].
Qed.

(** C9 (as amended): a status reply that does not carry
    ['Analysis Completed'] leaves the results region as it was and either
    writes the status display or fails without any write; a reply that
    carries it writes the results notice once; so in a run the results
    region is written once for every terminal reply delivered (exactly
    once when exactly one is delivered) and never otherwise. *)
Theorem results_written_on_terminal_status_only :
  (forall pg p o pg',
      stage pg = Polling p ->
      step (StatusReply o) pg = Some pg' ->
      terminal o = false ->
      resultsDiv (doc pg') = resultsDiv (doc pg)
      /\ results_writes (trace pg') = results_writes (trace pg)
      /\ (trace pg' = trace pg ++ [SetStatus (statusText (doc pg'))]
          \/ (trace pg' = trace pg ++ [Uncaught] /\ doc pg' = doc pg)))
  /\ (forall pg p o pg',
        stage pg = Polling p ->
        step (StatusReply o) pg = Some pg' ->
        terminal o = true ->
        resultsDiv (doc pg') = results_notice
        /\ results_writes (trace pg') =
           results_writes (trace pg) ++ [results_notice])
  /\ (forall id pg0 es pg,
        run es (pollStatus id pg0) = Some pg ->
        results_writes (trace pg) =
        results_writes (trace pg0)
          ++ repeat results_notice
               (List.length (filter terminal (status_replies es)))).
Proof.
  split; [|split].
  - intros pg p o pg' Hst Hstep Hterm.
    destruct (step_status_reply _ pg p pg' Hst Hstep) as (n & _ & ->).
    destruct (on_status_reply_obs o
                {| taskId := taskId p; interval := interval p; inflight := n |}
                pg) as (_ & _ & Hrw & _ & Hdiv).
    unfold results_write_of in Hrw. rewrite Hterm in Hrw, Hdiv.
    rewrite app_nil_r in Hrw.
    split; [exact Hdiv|]. split; [exact Hrw|].
    now apply on_status_reply_in_progress.
  - intros pg p o pg' Hst Hstep Hterm.
    destruct (step_status_reply _ pg p pg' Hst Hstep) as (n & _ & ->).
    destruct (on_status_reply_obs o
                {| taskId := taskId p; interval := interval p; inflight := n |}
                pg) as (_ & _ & Hrw & _ & Hdiv).
    unfold results_write_of in Hrw. rewrite Hterm in Hrw, Hdiv.
    split; assumption.
  - intros id pg0 es pg Hrun.
    destruct (run_polling es _ _ pg (pollStatus_stage id pg0) Hrun)
      as (p' & _ & _ & _ & _ & Hrw).
    rewrite Hrw, results_count. cbn [pollStatus trace].
    rewrite results_writes_app. cbn [results_writes].
    now rewrite app_nil_r.
Qed.

(** A reply ["Running"], then the terminal one. *)
Lemma results_written_on_terminal_status_only_witness :
  (exists pg pg',
      run [Tick] Sample.polling = Some pg
      /\ step (StatusReply (Sample.status "Running")) pg = Some pg'
      /\ resultsDiv (doc pg') = resultsDiv (doc pg))
  /\ (exists pg pg',
        run [Tick] Sample.polling = Some pg
        /\ step (StatusReply (Sample.status "Analysis Completed")) pg = Some pg'
        /\ resultsDiv (doc pg') = results_notice)
  /\ (exists pg,
        run [Tick; StatusReply (Sample.status "Running"); Tick;
             StatusReply (Sample.status "Analysis Completed"); Tick]
            Sample.polling = Some pg
        /\ results_writes (trace pg) = [] ++ repeat results_notice 1).
Proof.
  split; [|split].
  - do 2 eexists. do 2 (split; [reflexivity|]).
    exact (proj1 (proj1 results_written_on_terminal_status_only
                    (interval_callback
                       {| taskId := Json (JStr (lit "t1"));
                          interval := Some 2000; inflight := 0 |}
                       Sample.polling)
                    {| taskId := Json (JStr (lit "t1"));
                       interval := Some 2000; inflight := 1 |}
                    (Sample.status "Running") _ eq_refl eq_refl eq_refl)).
  - do 2 eexists. do 2 (split; [reflexivity|]).
    exact (proj1 (proj1 (proj2 results_written_on_terminal_status_only)
                    (interval_callback
                       {| taskId := Json (JStr (lit "t1"));
                          interval := Some 2000; inflight := 0 |}
                       Sample.polling)
                    {| taskId := Json (JStr (lit "t1"));
                       interval := Some 2000; inflight := 1 |}
                    (Sample.status "Analysis Completed") _
                    eq_refl eq_refl eq_refl)).
  - eexists. split; [reflexivity|].
    exact (proj2 (proj2 results_written_on_terminal_status_only)
             (Json (JStr (lit "t1"))) Sample.announced
             [Tick; StatusReply (Sample.status "Running"); Tick;
              StatusReply (Sample.status "Analysis Completed"); Tick]
             _ eq_refl).
Defined.

(** C9 (as stated) fails: three queries are in flight; the first is
    answered ["Running"], the other two ['Analysis Completed']; the
    results region is written twice. *)
Lemma results_region_written_twice :
  exists pg,
    run [Tick; Tick; Tick;
         StatusReply (Sample.status "Running");
         StatusReply (Sample.status "Analysis Completed");
         StatusReply (Sample.status "Analysis Completed")]
        Sample.polling = Some pg
    /\ results_writes (trace pg) = [results_notice; results_notice]
    /\ List.length (fetches (trace pg)) = 4%nat.
Proof. eexists. repeat split. Qed.

(** C10 (as amended): a status reply that does not carry the exact string
    ['Analysis Completed'] never clears the timer, even when handling it
    fails; the iteration succeeds, writing ["Current Task: "] and the
    status as a template literal renders it, whenever the body is not
    [null] and the status converts to a string, which an absent status
    ([undefined]), [null], a boolean, a number, a string and an object
    without a [toString] member of its own all do; and a reply is terminal
    exactly when its body has the member [status] equal to that string. *)
Theorem non_terminal_reply_keeps_polling :
  (forall pg p o pg',
      stage pg = Polling p ->
      step (StatusReply o) pg = Some pg' ->
      terminal o = false ->
      timer pg' = timer pg)
  /\ (forall pg p data status s pg',
        stage pg = Polling p ->
        get (lit "status") (Json data) = Some status ->
        status <> Json (JStr sentinel) ->
        to_string status = Some s ->
        step (StatusReply (Body data)) pg = Some pg' ->
        trace pg' = trace pg ++ [SetStatus (lit "Current Task: " ++ s)]
        /\ statusText (doc pg') = lit "Current Task: " ++ s
        /\ timer pg' = timer pg)
  /\ (forall data,
        data <> JNull ->
        exists status, get (lit "status") (Json data) = Some status)
  /\ (forall ms,
        own_property (lit "status") ms = None ->
        get (lit "status") (Json (JObj ms)) = Some Undefined)
  /\ (forall status,
        match status with
        | Json (JArr _) => False
        | Json (JObj ms) => own_property (lit "toString") ms = None
        | _ => True
        end ->
        exists s, to_string status = Some s)
  /\ (forall o,
        terminal o = true <->
        exists data,
          o = Body data
          /\ get (lit "status") (Json data) = Some (Json (JStr sentinel))).
Proof.
  split; [|split; [|split; [|split; [|split]]]].
  - intros pg p o pg' Hst Hstep Hterm.
    destruct (step_status_reply _ pg p pg' Hst Hstep) as (n & _ & ->).
    destruct (on_status_reply_obs o
                {| taskId := taskId p; interval := interval p; inflight := n |}
                pg) as (Hst' & _).
    unfold timer. rewrite Hst', Hst, Hterm. reflexivity.
  - intros pg p data status s pg' Hst Hget Hne Hs Hstep.
    destruct (step_status_reply _ pg p pg' Hst Hstep) as (n & _ & ->).
    assert (Hneq : strict_eq_string status sentinel = false).
    { destruct (strict_eq_string status sentinel) eqn:E; [|reflexivity].
      apply strict_eq_string_iff in E. contradiction. }
    rewrite (on_status_reply_label data status s _ pg Hget Hneq Hs).
    unfold timer. rewrite Hst. repeat split.
  - intros data Hnn. destruct data; cbn [get]; eauto. congruence.
  - intros ms Hms. cbn [get]. now rewrite Hms.
  - intros [|[ |[]| | | |ms]]; cbn [to_string json_to_string]; eauto.
    + contradiction.
    + intros ->. eauto.
  - apply terminal_iff.
Qed.

(** A body without a status, a status that is a number, and a failed
    request. *)
Lemma non_terminal_reply_keeps_polling_witness :
  (exists pg pg',
      run [Tick] Sample.polling = Some pg
      /\ step (StatusReply NetworkError) pg = Some pg'
      /\ timer pg' = timer pg)
  /\ (exists pg pg',
        run [Tick] Sample.polling = Some pg
        /\ step (StatusReply (Body (JObj [(lit "state", JStr (lit "x"))]))) pg
           = Some pg'
        /\ statusText (doc pg') = lit "Current Task: " ++ lit "undefined")
  /\ (exists pg pg',
        run [Tick] Sample.polling = Some pg
        /\ step (StatusReply (Body (JObj [(lit "status", JNum (lit "42"))]))) pg
           = Some pg'
        /\ statusText (doc pg') = lit "Current Task: " ++ lit "42").
Proof.
  pose (pg := interval_callback
                {| taskId := Json (JStr (lit "t1"));
                   interval := Some 2000; inflight := 0 |} Sample.polling).
  pose (p := {| taskId := Json (JStr (lit "t1"));
                interval := Some 2000; inflight := 1 |}).
  split; [|split]; do 2 eexists; do 2 (split; [reflexivity|]).
  - exact (proj1 non_terminal_reply_keeps_polling pg p NetworkError _
             eq_refl eq_refl eq_refl).
  - refine (proj1 (proj2 (proj1 (proj2 non_terminal_reply_keeps_polling)
                            pg p (JObj [(lit "state", JStr (lit "x"))])
                            Undefined (lit "undefined") _
                            eq_refl eq_refl _ eq_refl eq_refl))).
    discriminate.
  - refine (proj1 (proj2 (proj1 (proj2 non_terminal_reply_keeps_polling)
                            pg p (JObj [(lit "status", JNum (lit "42"))])
                            (Json (JNum (lit "42"))) (lit "42") _
                            eq_refl eq_refl _ eq_refl eq_refl))).
    discriminate.
Defined.

(** C10 (as stated) fails: with a status that is an object having a
    member [toString], and with the body [null], the iteration throws (the
    status display keeps its text); the timer stays registered. *)
Lemma status_reply_can_throw :
  (exists pg,
      run [Tick;
           StatusReply
             (Body (JObj [(lit "status",
                           JObj [(lit "toString", JNum (lit "1"))])]))]
          Sample.polling = Some pg
      /\ uncaught (trace pg) = 1%nat
      /\ status_writes (trace pg) = [lit "Task started..."]
      /\ timer pg = Some 2000)
  /\ (exists pg,
        run [Tick; StatusReply (Body JNull)] Sample.polling = Some pg
        /\ uncaught (trace pg) = 1%nat
        /\ status_writes (trace pg) = [lit "Task started..."]
        /\ timer pg = Some 2000).
Proof. split; eexists; repeat split. Qed.

End Claims.

(** ** Further properties of the derived list *)

Section DerivedUrls.

Lemma join_contains sep p ps :
  In p ps -> exists a b, join sep ps = a ++ p ++ b.
Proof.
  induction ps as [|q qs IH]; [intros []|].
  destruct qs as [|q' qs'].
  - intros [->|[]]. exists [], []. cbn. now rewrite app_nil_r.
  - rewrite join_cons. intros [->|Hin].
    + exists [], (sep :: join sep (q' :: qs')). reflexivity.
    + destruct (IH Hin) as (a & b & ->).
      exists (q ++ sep :: a), b. rewrite <- app_assoc. reflexivity.
Qed.

Lemma split_contains sep s p :
  In p (split sep s) -> exists a b, s = a ++ p ++ b.
Proof.
  intros Hin. destruct (join_contains sep p _ Hin) as (a & b & H).
  rewrite join_split in H. eauto.
Qed.

Lemma derived_url_origin s u :
  In u (comparison_urls_of s) ->
  u <> [] /\ exists p, In p (split comma s) /\ u = trim p.
Proof.
  unfold comparison_urls_of. rewrite filter_In, in_map_iff.
  intros [(p & <- & Hp) Hne]. split; [|eauto].
  destruct (trim p); [discriminate|discriminate].
Qed.

(** What holds of every item of the derived list. *)
Lemma derived_url_clean s u :
  In u (comparison_urls_of s) ->
  u <> []
  /\ ~ In comma u
  /\ (forall c t, u = c :: t -> is_white_space c = false)
  /\ (forall c t, u = t ++ [c] -> is_white_space c = false)
  /\ exists a b, s = a ++ u ++ b.
Proof.
  intros Hin. destruct (derived_url_origin s u Hin) as (Hne & p & Hp & Hu).
  destruct (trim_is_trimmed p) as (l & r & Heq & _ & _ & Hhd & Hlast).
  rewrite <- Hu in Heq, Hhd, Hlast. clear Hu.
  split; [exact Hne|]. split; [|split; [exact Hhd|split; [exact Hlast|]]].
  - intros Hc. pose proof (split_sep_free comma s) as Hfree.
    rewrite Forall_forall in Hfree. apply (Hfree p Hp).
    rewrite Heq. apply in_or_app. right. apply in_or_app. now left.
  - destruct (split_contains comma s p Hp) as (a & b & ->).
    exists (a ++ l), (r ++ b). rewrite Heq, <- !app_assoc. reflexivity.
Qed.

Lemma trim_clean u :
  (forall c t, u = c :: t -> is_white_space c = false) ->
  (forall c t, u = t ++ [c] -> is_white_space c = false) ->
  trim u = u.
Proof.
  intros Hhd Hlast. symmetry. apply is_trimmed_trim.
  exists [], []. cbn. rewrite app_nil_r.
  repeat split; try constructor; assumption.
Qed.

Lemma trim_all_white p : Spec.all_white p -> trim p = [].
Proof.
  intros H. unfold trim. now rewrite trim_start_all_white.
Qed.

Lemma trim_nil_all_white p : trim p = [] -> Spec.all_white p.
Proof.
  intros H. destruct (trim_is_trimmed p) as (l & r & Heq & Hl & Hr & _).
  rewrite H in Heq. rewrite Heq. apply Forall_app. now split.
Qed.

Lemma split_pieces_keep (Q : code_unit -> Prop) sep s :
  Forall Q s -> Forall (Forall Q) (split sep s).
Proof.
  induction 1 as [|c r Hc _ IH]; [repeat constructor|].
  rewrite split_cons. destruct (c =? sep); [constructor; auto|].
  destruct (split sep r) as [|q qs]; [repeat constructor; assumption|].
  inversion IH; subst. constructor; [constructor|]; assumption.
Qed.

Lemma join_pieces_keep (Q : code_unit -> Prop) sep ps :
  Q sep -> Forall (Forall Q) ps -> Forall Q (join sep ps).
Proof.
  intros Hsep. induction 1 as [|p qs Hp Hqs IH]; [constructor|].
  destruct qs as [|q qs']; [exact Hp|].
  rewrite join_cons. apply Forall_app. split; [exact Hp|].
  constructor; assumption.
Qed.

Lemma filter_map_trim_nil ps :
  filter to_boolean (map trim ps) = [] <-> Forall Spec.all_white ps.
Proof.
  induction ps as [|p ps IH]; [split; constructor|].
  cbn [map filter]. destruct (trim p) as [|c t] eqn:Ht; cbn [to_boolean].
  - rewrite IH. split.
    + intros H. constructor; [now apply trim_nil_all_white|exact H].
    + intros H. now inversion H.
  - split; [discriminate|]. intros H. inversion H as [|? ? Hp _]; subst.
    rewrite (trim_all_white p Hp) in Ht. discriminate.
Qed.

Lemma length_split sep s :
  List.length (split sep s) = S (count_occ N.eq_dec s sep).
Proof.
  induction s as [|c r IH]; [reflexivity|].
  rewrite split_cons. cbn [count_occ].
  destruct (N.eqb_spec c sep) as [->|Hne].
  - destruct (N.eq_dec sep sep); [|congruence]. cbn [List.length]. now rewrite IH.
  - destruct (N.eq_dec c sep); [congruence|].
    pose proof (split_not_nil sep r) as Hnn.
    destruct (split sep r); [congruence|]. exact IH.
Qed.

(** X1: every item of the derived list is a non-empty piece of the field
    as it was typed, holding no comma and with no whitespace at either
    end (whitespace inside an item is kept). *)
Theorem derived_urls_are_clean :
  forall s u,
    In u (comparison_urls_of s) ->
    u <> []
    /\ ~ In comma u
    /\ (forall c t, u = c :: t -> is_white_space c = false)
    /\ (forall c t, u = t ++ [c] -> is_white_space c = false)
    /\ exists a b, s = a ++ u ++ b.
Proof. exact derived_url_clean. Qed.

(** The item ["b c"] of ["a ,  b c ,"]. *)
Lemma derived_urls_are_clean_witness :
  In (lit "b c") (comparison_urls_of (lit "a ,  b c ,"))
  /\ lit "b c" <> []
  /\ exists a b, lit "a ,  b c ," = a ++ lit "b c" ++ b.
Proof.
  assert (Hin : In (lit "b c") (comparison_urls_of (lit "a ,  b c ,")))
    by (right; left; reflexivity).
  destruct (derived_urls_are_clean _ _ Hin) as (Hne & _ & _ & _ & Hsub).
  exact (conj Hin (conj Hne Hsub)).
Defined.

(** X2: the derived list is empty exactly when the field holds nothing
    but commas and whitespace (the empty field included). *)
Theorem no_urls_iff_blank_field :
  forall s,
    comparison_urls_of s = []
    <-> Forall (fun c => c = comma \/ is_white_space c = true) s.
Proof.
  intros s. unfold comparison_urls_of. rewrite filter_map_trim_nil. split.
  - intros Hw. rewrite <- (join_split comma s).
    apply join_pieces_keep; [now left|].
    eapply Forall_impl; [|exact Hw]. intros p Hp.
    eapply Forall_impl; [|exact Hp]. intros c Hc. now right.
  - intros Hs. pose proof (split_pieces_keep _ comma s Hs) as Hps.
    pose proof (split_sep_free comma s) as Hfree.
    rewrite Forall_forall in *. intros p Hp.
    specialize (Hps p Hp). specialize (Hfree p Hp).
    unfold Spec.all_white. rewrite Forall_forall in *. intros c Hc.
    destruct (Hps c Hc) as [->|Hw]; [contradiction|exact Hw].
Qed.

(** X3: the derived list survives a second pass: joined with commas and
    derived again it is the same list. *)
Theorem derived_urls_reparse :
  forall s,
    comparison_urls_of (join comma (comparison_urls_of s))
    = comparison_urls_of s.
Proof.
  intros s. destruct (comparison_urls_of s) as [|u us] eqn:Hus; [reflexivity|].
  assert (Hclean : forall v, In v (u :: us) ->
             v <> [] /\ ~ In comma v /\ trim v = v).
  { intros v Hv. rewrite <- Hus in Hv.
    destruct (derived_url_clean s v Hv) as (Hne & Hc & Hhd & Hlast & _).
    repeat split; [exact Hne|exact Hc|now apply trim_clean]. }
  unfold comparison_urls_of at 1.
  rewrite split_of_join;
    [|discriminate|apply Forall_forall; intros v Hv; apply (Hclean v Hv)].
  clear Hus. induction (u :: us) as [|v vs IH]; [reflexivity|].
  cbn [map filter].
  destruct (Hclean v (or_introl eq_refl)) as (Hne & _ & ->).
  destruct v as [|c t]; [congruence|]. cbn [to_boolean].
  f_equal. apply IH. intros w Hw. apply Hclean. now right.
Qed.

(** X4: a field with [n] commas gives at most [n + 1] items. *)
Theorem derived_urls_bounded_by_commas :
  forall s,
    (List.length (comparison_urls_of s) <= S (count_occ N.eq_dec s comma))%nat.
Proof.
  intros s. unfold comparison_urls_of.
  rewrite <- length_split, <- (length_map trim (split comma s)).
  apply filter_length_le.
Qed.

End DerivedUrls.

(** ** Further properties of the page *)

Section Flow.

Lemma on_submit_cases formData d :
  (form_get (lit "comparison_urls") formData = None
   /\ on_submit formData d =
      {| doc := d; stage := Aborted; trace := [PreventDefault; Uncaught] |})
  \/ (exists req,
        on_submit formData d =
        {| doc := d; stage := Submitting;
           trace := [PreventDefault; Fetch req] |}).
Proof.
  unfold on_submit.
  destruct (form_get (lit "comparison_urls") formData); [right|left]; eauto.
Qed.

Lemma step_trace_extends e pg pg1 :
  step e pg = Some pg1 -> exists suffix, trace pg1 = trace pg ++ suffix.
Proof.
  assert (Hsame : exists suffix, trace pg = trace pg ++ suffix)
    by (exists []; now rewrite app_nil_r).
  unfold step. destruct e as [|o|o], (stage pg) as [|p|];
    try discriminate; try (intros H; injection H as <-; exact Hsame).
  - destruct (interval p); intros H; injection H as <-; [|exact Hsame].
    unfold interval_callback, throw.
    destruct (to_string (taskId p)); cbn [trace]; eauto.
  - intros H. injection H as <-. unfold on_analyze_reply, throw.
    destruct o as [| |data]; cbn [trace]; eauto.
    destruct (get (lit "task_id") (Json data)); cbn [trace]; eauto.
    cbn [pollStatus task_started trace]. rewrite <- app_assoc. eauto.
  - destruct (inflight p); [discriminate|]. intros H. injection H as <-.
    unfold on_status_reply, throw. destruct o as [| |data]; cbn [trace]; eauto.
    destruct (get (lit "status") (Json data)) as [status|]; cbn [trace]; eauto.
    destruct (strict_eq_string status sentinel); cbn [trace]; eauto.
    destruct (to_string status); cbn [trace]; eauto.
Qed.

Lemma run_trace_extends es : forall pg pg',
  run es pg = Some pg' -> exists suffix, trace pg' = trace pg ++ suffix.
Proof.
  induction es as [|e es IH]; intros pg pg' Hrun.
  - injection Hrun as <-. exists []. now rewrite app_nil_r.
  - cbn [run] in Hrun. destruct (step e pg) as [pg1|] eqn:Hs; [|discriminate].
    destruct (step_trace_extends e pg pg1 Hs) as [s1 H1].
    destruct (IH pg1 pg' Hrun) as [s2 H2].
    exists (s1 ++ s2). now rewrite H2, H1, app_assoc.
Qed.

(** An event changes the results region only by writing the notice. *)
Lemma step_results_div e pg pg1 :
  step e pg = Some pg1 ->
  resultsDiv (doc pg1) = resultsDiv (doc pg)
  \/ resultsDiv (doc pg1) = results_notice.
Proof.
  unfold step. destruct e as [|o|o], (stage pg) as [|p|];
    try discriminate; try (intros H; injection H as <-; now left).
  - destruct (interval p); intros H; injection H as <-; [|now left].
    unfold interval_callback, throw. destruct (to_string (taskId p)); now left.
  - intros H. injection H as <-. unfold on_analyze_reply, throw.
    destruct o as [| |data]; try (now left).
    destruct (get (lit "task_id") (Json data)); now left.
  - destruct (inflight p) as [|n]; [discriminate|]. intros H. injection H as <-.
    destruct (on_status_reply_obs o
                {| taskId := taskId p; interval := interval p; inflight := n |}
                pg) as (_ & _ & _ & _ & Hdiv).
    rewrite Hdiv. destruct (terminal o); [now right|now left].
Qed.

Lemma step_tick_doc pg pg1 : step Tick pg = Some pg1 -> doc pg1 = doc pg.
Proof.
  unfold step. destruct (stage pg) as [|p|];
    try (intros H; injection H as <-; reflexivity).
  destruct (interval p); intros H; injection H as <-; [|reflexivity].
  unfold interval_callback, throw. now destruct (to_string (taskId p)).
Qed.

Lemma run_ticks_doc n : forall pg pg',
  run (repeat Tick n) pg = Some pg' -> doc pg' = doc pg.
Proof.
  induction n as [|n IH]; intros pg pg' Hrun.
  - now injection Hrun as <-.
  - cbn [repeat run] in Hrun.
    destruct (step Tick pg) as [pg1|] eqn:Hs; [|discriminate].
    rewrite (IH pg1 pg' Hrun). now apply step_tick_doc.
Qed.

Lemma status_replies_ticks n : status_replies (repeat Tick n) = [].
Proof. induction n; [reflexivity|exact IHn]. Qed.

(** The results region of a page that is polling, from the replies. *)
Lemma run_results_div es : forall pg p pg',
  stage pg = Polling p -> run es pg = Some pg' ->
  resultsDiv (doc pg') =
  (if existsb terminal (status_replies es) then results_notice
   else resultsDiv (doc pg)).
Proof.
  induction es as [|e es IH]; intros pg p pg' Hst Hrun.
  - now injection Hrun as <-.
  - cbn [run] in Hrun. destruct (step e pg) as [pg1|] eqn:Hs; [|discriminate].
    destruct (step_polling e pg p pg1 Hst Hs) as (p1 & Hst1 & _).
    rewrite (IH pg1 p1 pg' Hst1 Hrun).
    destruct e as [|o|o]; cbn [status_replies existsb].
    + now rewrite (step_tick_doc pg pg1 Hs).
    + unfold step in Hs. rewrite Hst in Hs. discriminate.
    + destruct (step_status_reply o pg p pg1 Hst Hs) as (n & _ & ->).
      destruct (on_status_reply_obs o
                  {| taskId := taskId p; interval := interval p; inflight := n |}
                  pg) as (_ & _ & _ & _ & Hdiv).
      rewrite Hdiv. destruct (terminal o), (existsb terminal (status_replies es));
        reflexivity.
Qed.

Lemma status_write_forms o :
  Forall (fun w => w = completed_text
                   \/ exists s, w = lit "Current Task: " ++ s)
         (status_write_of o).
Proof.
  unfold status_write_of. destruct o as [| |data]; try constructor.
  destruct (get (lit "status") (Json data)) as [status|]; [|constructor].
  destruct (strict_eq_string status sentinel);
    [constructor; [now left|constructor]|].
  destruct (to_string status) as [s|]; constructor; [|constructor].
  right. now exists s.
Qed.

(** X5: a form without the field [comparison_urls] makes the listener
    throw before it calls [fetch]: apart from [preventDefault] nothing is
    done, no request is ever issued and the displays stay as they were. *)
Theorem missing_urls_field_sends_nothing :
  forall formData d es pg,
    form_get (lit "comparison_urls") formData = None ->
    run es (on_submit formData d) = Some pg ->
    doc pg = d
    /\ stage pg = Aborted
    /\ trace pg = [PreventDefault; Uncaught]
    /\ fetches (trace pg) = [].
Proof.
  intros formData d es pg Hnone Hrun.
  destruct (on_submit_cases formData d) as [[_ Hsub]|[req Hsub]].
  - rewrite Hsub in Hrun. apply run_aborted in Hrun; [|reflexivity].
    subst pg. repeat split.
  - exfalso. revert Hsub. unfold on_submit. rewrite Hnone. discriminate.
Qed.

(** A form that holds only [main_url]; three periods elapse. *)
Lemma missing_urls_field_sends_nothing_witness :
  exists pg,
    run [Tick; Tick; Tick]
        (on_submit [(lit "main_url", lit "http://x")] Sample.blank) = Some pg
    /\ doc pg = Sample.blank
    /\ stage pg = Aborted
    /\ trace pg = [PreventDefault; Uncaught]
    /\ fetches (trace pg) = [].
Proof.
  eexists. split; [reflexivity|].
  exact (missing_urls_field_sends_nothing
           [(lit "main_url", lit "http://x")] Sample.blank [Tick; Tick; Tick]
           _ eq_refl eq_refl).
Defined.

(** X6: once the response to the submission is in, the page is in one of
    two states.  Either the listener has thrown (the request failed, the
    body was not JSON, or the body was [null]): no status text, displays
    untouched.  Or, for every other body, with a [task_id] or without,
    ['Task started...'] is the first status text and the timer has been
    registered for whatever [data.task_id] read. *)
Theorem listener_aborts_or_polls :
  forall formData d o es pg,
    run (AnalyzeReply o :: es) (on_submit formData d) = Some pg ->
    ((o = NetworkError \/ o = NotJson \/ o = Body JNull)
     /\ stage pg = Aborted /\ doc pg = d /\ status_writes (trace pg) = [])
    \/ (exists data p rest,
          o = Body data /\ data <> JNull
          /\ stage pg = Polling p
          /\ get (lit "task_id") (Json data) = Some (taskId p)
          /\ status_writes (trace pg) = lit "Task started..." :: rest
          /\ In (SetInterval 2000) (trace pg)).
Proof.
  intros formData d o es pg Hrun. cbn [run] in Hrun.
  destruct (step (AnalyzeReply o) (on_submit formData d)) as [pg1|] eqn:Hs;
    [|discriminate].
  destruct (on_submit_cases formData d) as [[_ Hsub]|[req Hsub]];
    rewrite Hsub in Hs; unfold step in Hs; cbn [stage] in Hs; [discriminate|].
  injection Hs as <-.
  assert (Habort : run es (throw Aborted
                             {| doc := d; stage := Submitting;
                                trace := [PreventDefault; Fetch req] |})
                   = Some pg ->
                   stage pg = Aborted /\ doc pg = d
                   /\ status_writes (trace pg) = []).
  { intros H. apply run_aborted in H; [|reflexivity]. subst pg.
    repeat split. }
  destruct o as [| |data]; cbn [on_analyze_reply] in Hrun.
  - left. split; [now left|now apply Habort].
  - left. split; [now right; left|now apply Habort].
  - destruct (get (lit "task_id") (Json data)) as [id|] eqn:Hid.
    + right.
      assert (Hnn : data <> JNull) by (intros ->; discriminate).
      destruct (run_polling es _ _ pg (pollStatus_stage id _) Hrun)
        as (p & Hst & Htid & _ & Hsw & _).
      destruct (run_trace_extends es _ pg Hrun) as [suffix Htr].
      exists data, p, (flat_map status_write_of (status_replies es)).
      split; [reflexivity|]. split; [exact Hnn|]. split; [exact Hst|].
      split; [now rewrite Htid|]. split; [exact Hsw|].
      rewrite Htr. apply in_or_app. left.
      cbn [pollStatus trace]. apply in_or_app. right. now left.
    + left. split; [|now apply Habort]. right; right.
      destruct data; try discriminate. reflexivity.
Qed.

(** X7: when the body of the response has no [task_id] (an error body,
    say), the loop polls ["/results/undefined"]. *)
Theorem missing_task_id_polls_undefined :
  forall formData d data es pg,
    get (lit "task_id") (Json data) = Some Undefined ->
    run (AnalyzeReply (Body data) :: es) (on_submit formData d) = Some pg ->
    exists k,
      stage pg <> Aborted
      /\ fetches (trace pg) =
         fetches (trace (on_submit formData d))
           ++ repeat {| url := lit "/results/undefined"; method := lit "GET";
                        headers := []; body := None |} k
      /\ (timer pg <> None -> k = ticks es).
Proof.
  intros formData d data es pg Hid Hrun. cbn [run] in Hrun.
  destruct (step (AnalyzeReply (Body data)) (on_submit formData d))
    as [pg1|] eqn:Hs; [|discriminate].
  destruct (on_submit_cases formData d) as [[_ Hsub]|[req Hsub]];
    rewrite Hsub in *; unfold step in Hs; cbn [stage] in Hs; [discriminate|].
  assert (Hpg1 : pg1 = pollStatus Undefined
                         (task_started
                            {| doc := d; stage := Submitting;
                               trace := [PreventDefault; Fetch req] |})).
  { unfold on_analyze_reply in Hs. rewrite Hid in Hs. congruence. }
  subst pg1.
  destruct (run_fetches es _ _ pg (lit "undefined")
              (pollStatus_stage Undefined _) eq_refl Hrun)
    as (k & _ & Hf & Hon & _).
  destruct (run_polling es _ _ pg (pollStatus_stage Undefined _) Hrun)
    as (p & Hst & _).
  exists k. split; [rewrite Hst; discriminate|]. split; [|exact Hon].
  rewrite Hf, pollStatus_fetches. reflexivity.
Qed.

(** The server answers [{"detail": "bad request"}]; two periods elapse. *)
Lemma missing_task_id_polls_undefined_witness :
  exists pg,
    run (AnalyzeReply (Body (JObj [(lit "detail", JStr (lit "bad request"))]))
           :: [Tick; Tick])
        (on_submit Sample.form Sample.blank) = Some pg
    /\ exists k,
         stage pg <> Aborted
         /\ fetches (trace pg) =
            fetches (trace (on_submit Sample.form Sample.blank))
              ++ repeat {| url := lit "/results/undefined"; method := lit "GET";
                           headers := []; body := None |} k
         /\ (timer pg <> None -> k = ticks [Tick; Tick]).
Proof.
  eexists. split; [reflexivity|].
  exact (missing_task_id_polls_undefined
           Sample.form Sample.blank
           (JObj [(lit "detail", JStr (lit "bad request"))]) [Tick; Tick]
           _ eq_refl eq_refl).
Defined.

(** An error body of the server, then two periods. *)
Lemma listener_aborts_or_polls_witness :
  exists pg,
    run (AnalyzeReply (Body (JObj [(lit "detail", JStr (lit "bad request"))]))
           :: [Tick; Tick])
        (on_submit Sample.form Sample.blank) = Some pg
    /\ (((Body (JObj [(lit "detail", JStr (lit "bad request"))]) = NetworkError
          \/ Body (JObj [(lit "detail", JStr (lit "bad request"))]) = NotJson
          \/ Body (JObj [(lit "detail", JStr (lit "bad request"))]) = Body JNull)
         /\ stage pg = Aborted /\ doc pg = Sample.blank
         /\ status_writes (trace pg) = [])
        \/ (exists data p rest,
              Body (JObj [(lit "detail", JStr (lit "bad request"))]) = Body data
              /\ data <> JNull
              /\ stage pg = Polling p
              /\ get (lit "task_id") (Json data) = Some (taskId p)
              /\ status_writes (trace pg) = lit "Task started..." :: rest
              /\ In (SetInterval 2000) (trace pg))).
Proof.
  eexists. split; [reflexivity|].
  exact (listener_aborts_or_polls
           Sample.form Sample.blank
           (Body (JObj [(lit "detail", JStr (lit "bad request"))]))
           [Tick; Tick] _ eq_refl).
Defined.

(** A reply that writes nothing is one on which the callback throws. *)
Lemma on_status_reply_fails o p pg :
  status_write_of o = [] -> on_status_reply o p pg = throw (Polling p) pg.
Proof.
  unfold status_write_of, on_status_reply.
  destruct o as [| |data]; try reflexivity.
  destruct (get (lit "status") (Json data)) as [status|]; [|reflexivity].
  destruct (strict_eq_string status sentinel); [discriminate|].
  destruct (to_string status); [discriminate|reflexivity].
Qed.

Lemma run_quiet es : forall pg p pg',
  stage pg = Polling p -> to_string (taskId p) <> None ->
  (forall o, In o (status_replies es) -> status_write_of o = []) ->
  run es pg = Some pg' ->
  doc pg' = doc pg
  /\ uncaught (trace pg') =
     (uncaught (trace pg) + List.length (status_replies es))%nat.
Proof.
  induction es as [|e es IH]; intros pg p pg' Hst Hid Hfail Hrun.
  - injection Hrun as <-. cbn. split; [reflexivity|lia].
  - cbn [run] in Hrun. destruct (step e pg) as [pg1|] eqn:Hs; [|discriminate].
    destruct (step_polling e pg p pg1 Hst Hs) as (p1 & Hst1 & Hid1 & _).
    rewrite <- Hid1 in Hid.
    destruct e as [|o|o].
    + cbn [status_replies] in *.
      destruct (IH pg1 p1 pg' Hst1 Hid Hfail Hrun) as [Hd Hu].
      rewrite Hd, Hu, (step_tick_doc pg pg1 Hs). split; [reflexivity|].
      f_equal. unfold step in Hs. rewrite Hst in Hs.
      destruct (interval p); [|congruence]. injection Hs as <-.
      unfold interval_callback. rewrite Hid1 in Hid.
      destruct (to_string (taskId p)); [|congruence].
      cbn [trace]. rewrite uncaught_app. cbn. lia.
    + unfold step in Hs. rewrite Hst in Hs. discriminate.
    + cbn [status_replies] in *.
      destruct (IH pg1 p1 pg' Hst1 Hid
                  (fun o' H => Hfail o' (or_intror H)) Hrun) as [Hd Hu].
      destruct (step_status_reply o pg p pg1 Hst Hs) as (n & _ & ->).
      rewrite on_status_reply_fails in Hd, Hu by (apply Hfail; now left).
      cbn [throw doc trace] in Hd, Hu. rewrite uncaught_app in Hu.
      cbn [uncaught List.length] in *. split; [exact Hd|lia].
Qed.

(** X8: status queries that fail (the request is rejected, or its body is
    not JSON) are silent: however many fail, the displays stay as they
    were, nothing is written to the status display, and each failure is one
    unhandled rejection. *)
Theorem failed_status_queries_are_silent :
  forall id t pg0 es pg,
    to_string id = Some t ->
    (forall o, In o (status_replies es) -> o = NetworkError \/ o = NotJson) ->
    run es (pollStatus id pg0) = Some pg ->
    doc pg = doc pg0
    /\ status_writes (trace pg) = status_writes (trace pg0)
    /\ uncaught (trace pg) =
       (uncaught (trace pg0) + List.length (status_replies es))%nat.
Proof.
  intros id t pg0 es pg Hid Hfail Hrun.
  assert (Hquiet : forall o, In o (status_replies es) -> status_write_of o = []).
  { intros o Ho. destruct (Hfail o Ho) as [-> | ->]; reflexivity. }
  destruct (run_quiet es _ _ pg (pollStatus_stage id pg0)
              ltac:(cbn [taskId]; congruence) Hquiet Hrun) as [Hd Hu].
  destruct (run_polling es _ _ pg (pollStatus_stage id pg0) Hrun)
    as (_ & _ & _ & _ & Hsw & _).
  split; [exact Hd|]. split.
  - rewrite Hsw. cbn [pollStatus trace]. rewrite status_writes_app.
    cbn [status_writes]. rewrite app_nil_r.
    assert (Hnil : flat_map status_write_of (status_replies es) = []).
    { clear - Hquiet. induction (status_replies es) as [|o l IH];
        [reflexivity|].
      cbn [flat_map]. rewrite (Hquiet o (or_introl eq_refl)).
      apply IH. intros o' H. apply Hquiet. now right. }
    rewrite Hnil. apply app_nil_r.
  - rewrite Hu. cbn [pollStatus trace]. rewrite uncaught_app. cbn. lia.
Qed.

(** Three periods; two requests are rejected, one body does not parse. *)
Lemma failed_status_queries_are_silent_witness :
  exists pg,
    run [Tick; StatusReply NetworkError; Tick; Tick; StatusReply NotJson;
         StatusReply NetworkError]
        Sample.polling = Some pg
    /\ doc pg = doc Sample.announced
    /\ status_writes (trace pg) = status_writes (trace Sample.announced)
    /\ uncaught (trace pg) = (uncaught (trace Sample.announced) + 3)%nat.
Proof.
  eexists. split; [reflexivity|].
  refine (failed_status_queries_are_silent
            (Json (JStr (lit "t1"))) (lit "t1") Sample.announced
            [Tick; StatusReply NetworkError; Tick; Tick; StatusReply NotJson;
             StatusReply NetworkError]
            _ eq_refl _ eq_refl).
  intros o [<-|[<-|[<-|[]]]]; [left|right|left]; reflexivity.
Defined.

Lemma run_unrenderable es : forall pg pg' id delay,
  stage pg = Polling {| taskId := id; interval := Some delay; inflight := 0 |} ->
  to_string id = None ->
  run es pg = Some pg' ->
  stage pg' = stage pg
  /\ doc pg' = doc pg
  /\ fetches (trace pg') = fetches (trace pg)
  /\ uncaught (trace pg') = (uncaught (trace pg) + ticks es)%nat
  /\ status_replies es = [].
Proof.
  induction es as [|e es IH]; intros pg pg' id delay Hst Hid Hrun.
  - injection Hrun as <-. cbn. repeat split. lia.
  - cbn [run] in Hrun. unfold step in Hrun. rewrite Hst in Hrun.
    cbn [interval inflight] in Hrun.
    destruct e as [|o|o]; try discriminate.
    unfold interval_callback in Hrun. cbn [taskId] in Hrun.
    rewrite Hid in Hrun.
    destruct (IH (throw (Polling {| taskId := id; interval := Some delay;
                                    inflight := 0 |}) pg)
                 pg' id delay eq_refl Hid Hrun) as (Hs & Hd & Hf & Hu & Hr).
    cbn [throw stage doc trace] in Hs, Hd, Hf, Hu.
    rewrite fetches_app in Hf. rewrite uncaught_app in Hu.
    cbn [fetches uncaught] in Hf, Hu. rewrite app_nil_r in Hf.
    cbn [ticks status_replies].
    repeat split; try assumption; [congruence|lia].
Qed.

(** X9: a [task_id] that does not convert to a string (an object with a
    member [toString]) makes the callback throw on every period before it
    calls [fetch]: no status query is ever issued, no reply can arrive,
    the displays never change, and the timer is never cleared. *)
Theorem unrenderable_task_id_never_queries :
  forall id pg0 es pg,
    to_string id = None ->
    run es (pollStatus id pg0) = Some pg ->
    fetches (trace pg) = fetches (trace pg0)
    /\ doc pg = doc pg0
    /\ timer pg = Some 2000
    /\ uncaught (trace pg) = (uncaught (trace pg0) + ticks es)%nat
    /\ status_replies es = [].
Proof.
  intros id pg0 es pg Hid Hrun.
  destruct (run_unrenderable es _ pg id 2000 (pollStatus_stage id pg0) Hid Hrun)
    as (Hs & Hd & Hf & Hu & Hr).
  cbn [pollStatus doc trace] in Hd, Hf, Hu.
  rewrite fetches_app in Hf. rewrite uncaught_app in Hu.
  cbn [fetches uncaught] in Hf, Hu. rewrite app_nil_r in Hf.
  split; [exact Hf|]. split; [exact Hd|]. split; [|split; [lia|exact Hr]].
  unfold timer. rewrite Hs. reflexivity.
Qed.

(** The task identifier [{"toString": 1}]; four periods elapse. *)
Lemma unrenderable_task_id_never_queries_witness :
  exists pg,
    run [Tick; Tick; Tick; Tick]
        (pollStatus (Json (JObj [(lit "toString", JNum (lit "1"))]))
           Sample.announced) = Some pg
    /\ fetches (trace pg) = fetches (trace Sample.announced)
    /\ doc pg = doc Sample.announced
    /\ timer pg = Some 2000
    /\ uncaught (trace pg) = (uncaught (trace Sample.announced) + 4)%nat.
Proof.
  eexists. split; [reflexivity|].
  destruct (unrenderable_task_id_never_queries
              (Json (JObj [(lit "toString", JNum (lit "1"))]))
              Sample.announced [Tick; Tick; Tick; Tick] _ eq_refl eq_refl)
    as (Hf & Hd & Ht & Hu & _).
  exact (conj Hf (conj Hd (conj Ht Hu))).
Defined.

Lemma terminal_replies_counted l :
  existsb terminal l = true ->
  exists n, List.length (filter terminal l) = S n.
Proof.
  induction l as [|o l IH]; [discriminate|].
  cbn [existsb filter]. destruct (terminal o); cbn [List.length orb]; eauto.
Qed.

(** X10: polling has stopped exactly when the results notice has been
    written: either the timer is registered and the results region has not
    been touched since [pollStatus] was called, or the timer is cleared and
    the region holds the notice, written at least once. *)
Theorem polling_stops_iff_results_written :
  forall id pg0 es pg,
    run es (pollStatus id pg0) = Some pg ->
    (timer pg = Some 2000
     /\ results_writes (trace pg) = results_writes (trace pg0)
     /\ resultsDiv (doc pg) = resultsDiv (doc pg0))
    \/ (timer pg = None
        /\ resultsDiv (doc pg) = results_notice
        /\ exists n,
             results_writes (trace pg) =
             results_writes (trace pg0) ++ repeat results_notice (S n)).
Proof.
  intros id pg0 es pg Hrun.
  destruct (run_polling es _ _ pg (pollStatus_stage id pg0) Hrun)
    as (p & Hst & _ & Hiv & _ & Hrw).
  pose proof (run_results_div es _ _ pg (pollStatus_stage id pg0) Hrun) as Hdiv.
  cbn [pollStatus trace doc interval] in Hiv, Hrw, Hdiv.
  rewrite results_writes_app in Hrw. cbn [results_writes] in Hrw.
  rewrite app_nil_r in Hrw. unfold timer. rewrite Hst, Hiv.
  destruct (existsb terminal (status_replies es)) eqn:Hex.
  - right. split; [reflexivity|]. split; [exact Hdiv|].
    destruct (terminal_replies_counted _ Hex) as [n Hn].
    exists n. now rewrite Hrw, results_count, Hn.
  - left. split; [reflexivity|]. split; [|exact Hdiv].
    rewrite Hrw, results_without_terminal by assumption. apply app_nil_r.
Qed.

(** Two periods, the second query answered first with the terminal
    status. *)
Lemma polling_stops_iff_results_written_witness :
  exists pg,
    run [Tick; Tick; StatusReply (Sample.status "Analysis Completed")]
        Sample.polling = Some pg
    /\ ((timer pg = Some 2000
         /\ results_writes (trace pg) = results_writes (trace Sample.announced)
         /\ resultsDiv (doc pg) = resultsDiv (doc Sample.announced))
        \/ (timer pg = None
            /\ resultsDiv (doc pg) = results_notice
            /\ exists n,
                 results_writes (trace pg) =
                 results_writes (trace Sample.announced)
                   ++ repeat results_notice (S n))).
Proof.
  eexists. split; [reflexivity|].
  exact (polling_stops_iff_results_written
           (Json (JStr (lit "t1"))) Sample.announced
           [Tick; Tick; StatusReply (Sample.status "Analysis Completed")]
           _ eq_refl).
Defined.

(** X11: nothing ever clears or rewrites the results region: after any
    events it holds what it held or the notice, and once it holds the
    notice it holds it for good. *)
Theorem results_notice_is_permanent :
  forall es pg pg',
    run es pg = Some pg' ->
    (resultsDiv (doc pg') = resultsDiv (doc pg)
     \/ resultsDiv (doc pg') = results_notice)
    /\ (resultsDiv (doc pg) = results_notice ->
        resultsDiv (doc pg') = results_notice).
Proof.
  induction es as [|e es IH]; intros pg pg' Hrun.
  - injection Hrun as <-. split; [now left|auto].
  - cbn [run] in Hrun. destruct (step e pg) as [pg1|] eqn:Hs; [|discriminate].
    destruct (IH pg1 pg' Hrun) as [Hor Hkeep].
    destruct (step_results_div e pg pg1 Hs) as [H1|H1].
    + rewrite <- H1. split; assumption.
    + split; [right|intros _]; now apply Hkeep.
Qed.

(** After the completion a reply ["Running"] that was still in flight
    arrives: the notice stays. *)
Lemma results_notice_is_permanent_witness :
  exists pg pg',
    run [Tick; Tick; StatusReply (Sample.status "Analysis Completed")]
        Sample.polling = Some pg
    /\ run [StatusReply (Sample.status "Running"); Tick] pg = Some pg'
    /\ resultsDiv (doc pg') = results_notice.
Proof.
  pose (pg := match run [Tick; Tick;
                         StatusReply (Sample.status "Analysis Completed")]
                        Sample.polling with
              | Some pg => pg
              | None => Sample.polling
              end).
  exists pg. eexists. do 2 (split; [reflexivity|]).
  exact (proj2 (results_notice_is_permanent
                  [StatusReply (Sample.status "Running"); Tick] pg _ eq_refl)
               eq_refl).
Defined.

(** X12: the status display shows the reply handled last, not the state
    of the task: an in-progress reply handled after any others (the
    terminal one included, when queries overlap) leaves its label on
    display; if the terminal reply came before it, the label stands beside
    the results notice with the timer cleared. *)
Theorem status_display_shows_last_reply :
  forall id pg0 es data s n pg,
    get (lit "status") (Json data) = Some (Json (JStr s)) ->
    s <> sentinel ->
    run (es ++ StatusReply (Body data) :: repeat Tick n) (pollStatus id pg0)
    = Some pg ->
    statusText (doc pg) = lit "Current Task: " ++ s
    /\ (existsb terminal (status_replies es) = true ->
        timer pg = None /\ resultsDiv (doc pg) = results_notice).
Proof.
  intros id pg0 es data s n pg Hget Hne Hrun. split.
  - rewrite run_app in Hrun.
    destruct (run es (pollStatus id pg0)) as [pg1|] eqn:Hrun1; [|discriminate].
    cbn [run] in Hrun.
    destruct (step (StatusReply (Body data)) pg1) as [pg2|] eqn:Hs;
      [|discriminate].
    rewrite (run_ticks_doc n pg2 pg Hrun).
    destruct (run_polling es _ _ pg1 (pollStatus_stage id pg0) Hrun1)
      as (p1 & Hst1 & _).
    destruct (step_status_reply _ pg1 p1 pg2 Hst1 Hs) as (k & _ & ->).
    rewrite (on_status_reply_label data _ s _ pg1 Hget);
      [reflexivity|cbn [strict_eq_string]; now apply eqb_neq|reflexivity].
  - intros Hex.
    destruct (run_polling _ _ _ pg (pollStatus_stage id pg0) Hrun)
      as (p & Hst & _ & Hiv & _).
    pose proof (run_results_div _ _ _ pg (pollStatus_stage id pg0) Hrun) as Hdiv.
    rewrite status_replies_app, existsb_app, Hex in Hiv, Hdiv.
    cbn [orb] in Hiv, Hdiv. unfold timer. now rewrite Hst.
Qed.

(** Two queries in flight: the second is answered with the terminal
    status, then the first with ["Running"]. *)
Lemma status_display_shows_last_reply_witness :
  exists pg,
    run ([Tick; Tick; StatusReply (Sample.status "Analysis Completed")]
           ++ StatusReply (Sample.status "Running") :: repeat Tick 2)
        Sample.polling = Some pg
    /\ statusText (doc pg) = lit "Current Task: " ++ lit "Running"
    /\ timer pg = None
    /\ resultsDiv (doc pg) = results_notice.
Proof.
  eexists. split; [reflexivity|].
  assert (Hne : lit "Running" <> sentinel)
    by (intros H; vm_compute in H; discriminate).
  destruct (status_display_shows_last_reply
              (Json (JStr (lit "t1"))) Sample.announced
              [Tick; Tick; StatusReply (Sample.status "Analysis Completed")]
              (JObj [(lit "status", JStr (lit "Running"))]) (lit "Running")
              2%nat _ eq_refl Hne eq_refl) as [Hs Hdone].
  exact (conj Hs (Hdone eq_refl)).
Defined.

Lemma run_live_ticks es : forall pg p pg' t,
  stage pg = Polling p -> interval p <> None ->
  to_string (taskId p) = Some t ->
  run es pg = Some pg' ->
  fetches (trace pg') =
  fetches (trace pg) ++ repeat (status_request t) (live_ticks es).
Proof.
  induction es as [|e es IH]; intros pg p pg' t Hst Hiv Hid Hrun.
  - injection Hrun as <-. cbn. now rewrite app_nil_r.
  - cbn [run] in Hrun. destruct (step e pg) as [pg1|] eqn:Hs; [|discriminate].
    destruct (step_polling e pg p pg1 Hst Hs)
      as (p1 & Hst1 & Hid1 & Hiv1 & _ & _ & Hf1).
    rewrite <- Hid1 in Hid.
    destruct e as [|o|o]; cbn [live_ticks status_replies existsb] in *.
    + rewrite (IH pg1 p1 pg' t Hst1 ltac:(congruence) Hid Hrun), Hf1.
      unfold query_of. rewrite Hid1 in Hid. rewrite Hid.
      destruct (interval p); [|congruence].
      rewrite <- app_assoc. reflexivity.
    + unfold step in Hs. rewrite Hst in Hs. discriminate.
    + rewrite orb_false_r in Hiv1. rewrite app_nil_r in Hf1.
      destruct (terminal o).
      * destruct (run_timer_off es pg1 p1 pg' Hst1 Hiv1 Hrun) as [Hf _].
        rewrite Hf, Hf1. cbn. now rewrite app_nil_r.
      * rewrite (IH pg1 p1 pg' t Hst1 ltac:(congruence) Hid Hrun), Hf1.
        reflexivity.
Qed.

(** X13: the status queries of a run are one for every period that
    elapsed before the first terminal reply was handled, all of them the
    same request; periods elapsing afterwards issue none. *)
Theorem queries_until_completion :
  forall id t pg0 es pg,
    to_string id = Some t ->
    run es (pollStatus id pg0) = Some pg ->
    fetches (trace pg) =
    fetches (trace pg0) ++ repeat (status_request t) (live_ticks es).
Proof.
  intros id t pg0 es pg Hid Hrun.
  rewrite (run_live_ticks es _ _ pg t (pollStatus_stage id pg0)
             ltac:(discriminate) Hid Hrun).
  cbn [pollStatus trace]. rewrite fetches_app. cbn [fetches].
  now rewrite app_nil_r.
Qed.

(** Three periods before the terminal reply is handled, two after it. *)
Lemma queries_until_completion_witness :
  exists pg,
    run [Tick; StatusReply (Sample.status "Running"); Tick; Tick;
         StatusReply (Sample.status "Analysis Completed"); Tick;
         StatusReply (Sample.status "Running"); Tick]
        Sample.polling = Some pg
    /\ fetches (trace pg) =
       fetches (trace Sample.announced) ++ repeat (status_request (lit "t1")) 3.
Proof.
  eexists. split; [reflexivity|].
  exact (queries_until_completion
           (Json (JStr (lit "t1"))) (lit "t1") Sample.announced
           [Tick; StatusReply (Sample.status "Running"); Tick; Tick;
            StatusReply (Sample.status "Analysis Completed"); Tick;
            StatusReply (Sample.status "Running"); Tick]
           _ eq_refl eq_refl).
Defined.

Lemma status_writes_forms l :
  Forall (fun w => w = completed_text
                   \/ exists s, w = lit "Current Task: " ++ s)
         (flat_map status_write_of l).
Proof.
  induction l as [|o l IH]; [constructor|].
  cbn [flat_map]. apply Forall_app. split; [apply status_write_forms|exact IH].
Qed.

(** X14: whatever happens after a submission, the texts written to the
    status display are ['Task started...'] first and then only
    ['Analysis Completed!'] or a label ["Current Task: ..."]: no failure
    is ever reported there. *)
Theorem status_texts_have_three_forms :
  forall formData d es pg,
    run es (on_submit formData d) = Some pg ->
    status_writes (trace pg) = []
    \/ exists rest,
         status_writes (trace pg) = lit "Task started..." :: rest
         /\ Forall (fun w => w = completed_text
                             \/ exists s, w = lit "Current Task: " ++ s) rest.
Proof.
  intros formData d es pg Hrun.
  destruct (on_submit_cases formData d) as [[_ Hsub]|[req Hsub]];
    rewrite Hsub in Hrun.
  - apply run_aborted in Hrun; [|reflexivity]. subst pg. now left.
  - apply run_submitting in Hrun; [|reflexivity].
    destruct Hrun as [->|(o & es2 & Hrun)]; [now left|].
    assert (Habort : run es2 (throw Aborted
                                {| doc := d; stage := Submitting;
                                   trace := [PreventDefault; Fetch req] |})
                     = Some pg -> status_writes (trace pg) = []).
    { intros H. apply run_aborted in H; [|reflexivity]. now subst pg. }
    unfold on_analyze_reply in Hrun.
    destruct o as [| |data]; try (left; now apply Habort).
    destruct (get (lit "task_id") (Json data)) as [id|];
      [|left; now apply Habort].
    destruct (run_polling es2 _ _ pg (pollStatus_stage id _) Hrun)
      as (_ & _ & _ & _ & Hsw & _).
    right. exists (flat_map status_write_of (status_replies es2)).
    split; [exact Hsw|apply status_writes_forms].
Qed.

(** A whole run: the task is created, a query fails, one is answered
    ["Queued"], one with the terminal status. *)
Lemma status_texts_have_three_forms_witness :
  exists pg,
    run [AnalyzeReply (Body Sample.task_created); Tick;
         StatusReply NetworkError; Tick; StatusReply (Sample.status "Queued");
         Tick; StatusReply (Sample.status "Analysis Completed")]
        (on_submit Sample.form Sample.blank) = Some pg
    /\ (status_writes (trace pg) = []
        \/ exists rest,
             status_writes (trace pg) = lit "Task started..." :: rest
             /\ Forall (fun w => w = completed_text
                                 \/ exists s, w = lit "Current Task: " ++ s)
                       rest).
Proof.
  eexists. split; [reflexivity|].
  exact (status_texts_have_three_forms
           Sample.form Sample.blank
           [AnalyzeReply (Body Sample.task_created); Tick;
            StatusReply NetworkError; Tick; StatusReply (Sample.status "Queued");
            Tick; StatusReply (Sample.status "Analysis Completed")]
           _ eq_refl).
Defined.

End Flow.
